(** * httpmon: the HTTP latency exporter (http_exporter.go)

    A shallow embedding of the exporter's probe ([visit]), its collector
    ([Collect]) and its scrape handler ([prometheusReqsHandler]), with the
    properties of the design document stated and settled against it.

    Conventions.
    - A [time.Time] is an instant in nanoseconds on one time line; the zero
      [Time] is [0].  A [time.Duration] is an [int64] count of nanoseconds.
    - Go's [int] and [int64] are [Z] with the wrap-around written out
      ([wrap64]).
    - A [float64] is a [spec_float] at precision 53 and exponent bound 1024.
    - The network, the clock and the parts of the libraries that the
      exporter only calls are gathered in a [World]. *)

From Stdlib Require Import ZArith Lia Bool List String Ascii.
From Stdlib Require Import Floats.SpecFloat.
From stdpp Require Import base option list strings gmap.

Import ListNotations.
Local Open Scope string_scope.
Local Open Scope Z_scope.

(* ===================================================================== *)
(** ** Machine integers, instants and durations *)
(* ===================================================================== *)

Module Int64.

Definition min_int : Z := - 2 ^ 63.
Definition max_int : Z := 2 ^ 63 - 1.

(** Two's-complement reduction of a mathematical integer to [int64]. *)
Definition wrap64 (z : Z) : Z := (z + 2 ^ 63) mod 2 ^ 64 - 2 ^ 63.

Definition in_range (z : Z) : Prop := min_int <= z <= max_int.

End Int64.

Module Time.

(** [time.Time]: an instant, in nanoseconds. *)
Definition Time := Z.

(** [time.Duration]: [int64] nanoseconds. *)
Definition Duration := Z.

Definition minDuration : Duration := Int64.min_int.
Definition maxDuration : Duration := Int64.max_int.

Definition Nanosecond : Duration := 1.
Definition Microsecond : Duration := 1000 * Nanosecond.
Definition Millisecond : Duration := 1000 * Microsecond.
Definition Second : Duration := 1000 * Millisecond.

(** The zero value of [time.Time], the content of a checkpoint that was
    never reached. *)
Definition zero : Time := 0.

(** [t.Sub(u)]: the duration [t - u]; when it does not fit a [Duration]
    the minimum or the maximum duration is returned. *)
Definition Sub (t u : Time) : Duration :=
  let d := t - u in
  if d <? minDuration then minDuration
  else if maxDuration <? d then maxDuration
  else d.

End Time.

Import Time.

(* ===================================================================== *)
(** ** The timing trace: [stats] and its six derived durations *)
(* ===================================================================== *)

(** An X.509 certificate, by its DER encoding. *)
Definition Certificate := string.

Record stats := mkStats {
  tlsCert : option Certificate;
  Start : Time;
  DNSStart : Time;
  DNSDone : Time;
  ConnectStart : Time;
  ConnectDone : Time;
  TLSHandshakeStart : Time;
  TLSHandshakeDone : Time;
  GotConn : Time;
  GotFirstResponseByte : Time;
  Finish : Time
}.

(** [var s stats]: every field at its zero value. *)
Definition zero_stats : stats :=
  mkStats None zero zero zero zero zero zero zero zero zero zero.

Definition dnsLookup (s : stats) : Duration := Sub (DNSDone s) (DNSStart s).

Definition tcpConnection (s : stats) : Duration :=
  Sub (ConnectDone s) (ConnectStart s).

Definition tlsHandshake (s : stats) : Duration :=
  Sub (TLSHandshakeDone s) (TLSHandshakeStart s).

Definition serverProcessing (s : stats) : Duration :=
  Sub (GotFirstResponseByte s) (GotConn s).

Definition contentTransfer (s : stats) : Duration :=
  Sub (Finish s) (GotFirstResponseByte s).

Definition ttfb (s : stats) : Duration :=
  Sub (GotFirstResponseByte s) (Start s).

(** The ordering invariant of the trace.  The eight checkpoints of every
    fetch are ordered; the two TLS checkpoints are either both unreached
    (a plain-HTTP target) or ordered between [ConnectDone] and [GotConn]. *)
Definition tls_ordered (s : stats) : Prop :=
  (TLSHandshakeStart s = zero /\ TLSHandshakeDone s = zero) \/
  (ConnectDone s <= TLSHandshakeStart s /\
   TLSHandshakeStart s <= TLSHandshakeDone s /\
   TLSHandshakeDone s <= GotConn s).

Definition ordered (s : stats) : Prop :=
  Start s <= DNSStart s /\
  DNSStart s <= DNSDone s /\
  DNSDone s <= ConnectStart s /\
  ConnectStart s <= ConnectDone s /\
  ConnectDone s <= GotConn s /\
  GotConn s <= GotFirstResponseByte s /\
  GotFirstResponseByte s <= Finish s /\
  tls_ordered s.

(* ===================================================================== *)
(** ** [float64] and the conversion to milliseconds *)
(* ===================================================================== *)

Module Float64.

Definition prec : Z := 53.
Definition emax : Z := 1024.

Definition float64 := spec_float.

(** The conversion [float64(n)] of an integer: the nearest double, ties
    to even. *)
Definition of_int (n : Z) : float64 := binary_normalize prec emax n 0 false.

(** The quotient [x / y] of two doubles. *)
Definition div (x y : float64) : float64 := SFdiv prec emax x y.

End Float64.

Definition ns2ms (d : Duration) : Float64.float64 :=
  Float64.div (Float64.of_int d) (Float64.of_int Millisecond).

(* ===================================================================== *)
(** ** Bytes and strings *)
(* ===================================================================== *)

Module Bytes.

Definition code (c : ascii) : Z := Z.of_N (N_of_ascii c).

Definition is_lower (c : ascii) : bool := (97 <=? code c) && (code c <=? 122).
Definition is_upper (c : ascii) : bool := (65 <=? code c) && (code c <=? 90).
Definition is_digit (c : ascii) : bool := (48 <=? code c) && (code c <=? 57).

Definition to_lower (c : ascii) : ascii :=
  if is_upper c then ascii_of_N (Z.to_N (code c + 32)) else c.

(** [strings.ToLower] on a string of ASCII letters, digits and signs. *)
Fixpoint ToLower (s : string) : string :=
  match s with
  | EmptyString => EmptyString
  | String c r => String (to_lower c) (ToLower r)
  end.

Fixpoint all (p : ascii -> bool) (s : string) : bool :=
  match s with
  | EmptyString => true
  | String c r => p c && all p r
  end.

Fixpoint any (p : ascii -> bool) (s : string) : bool :=
  match s with
  | EmptyString => false
  | String c r => p c || any p r
  end.

(** [strings.Cut(s, sep)] for a one-byte separator: the text before and
    after the first separator. *)
Fixpoint Cut (sep : ascii) (s : string) : string * string :=
  match s with
  | EmptyString => (EmptyString, EmptyString)
  | String c r =>
      if Ascii.eqb c sep then (EmptyString, r)
      else let '(before, after) := Cut sep r in (String c before, after)
  end.

Definition HasPrefix (s p : string) : bool := String.prefix p s.

(** A continuation byte of UTF-8, [0x80..0xBF]. *)
Definition cont (c : ascii) : bool := (128 <=? code c) && (code c <=? 191).

Definition between (lo hi : Z) (c : ascii) : bool :=
  (lo <=? code c) && (code c <=? hi).

(** [utf8.ValidString]: the bytes are a sequence of well-formed UTF-8
    encodings (no overlong form, no surrogate, nothing above U+10FFFF). *)
Fixpoint ValidString (s : string) : bool :=
  match s with
  | EmptyString => true
  | String c0 r0 =>
      if code c0 <? 128 then ValidString r0
      else if between 194 223 c0 then
        match r0 with
        | String c1 r1 => cont c1 && ValidString r1
        | _ => false
        end
      else if between 224 239 c0 then
        match r0 with
        | String c1 (String c2 r2) =>
            (if code c0 =? 224 then between 160 191 c1
             else if code c0 =? 237 then between 128 159 c1
             else cont c1)
            && cont c2 && ValidString r2
        | _ => false
        end
      else if between 240 244 c0 then
        match r0 with
        | String c1 (String c2 (String c3 r3)) =>
            (if code c0 =? 240 then between 144 191 c1
             else if code c0 =? 244 then between 128 143 c1
             else cont c1)
            && cont c2 && cont c3 && ValidString r3
        | _ => false
        end
      else false
  end.

End Bytes.

(* ===================================================================== *)
(** ** Errors and log records *)
(* ===================================================================== *)

(** The error values the exporter meets, by what raised them. *)
Inductive error : Type :=
  (* net/url *)
  | ErrControlCharacter          (* invalid control character in URL *)
  | ErrMissingScheme             (* missing protocol scheme *)
  | ErrURLSyntax (what : string) (* any later complaint of the URL parser *)
  | ErrURL (op target : string) (cause : error)   (* *url.Error *)
  (* net/http *)
  | ErrUnsupportedScheme (scheme : string)
  | ErrNetwork (what : string)   (* DNS, connect, TLS, timeout, cancel *)
  | ErrRedirects                 (* stopped after 10 redirects *)
  (* strconv *)
  | ErrSyntax (fn input : string)
  | ErrRange (fn input : string)
  (* prometheus *)
  | ErrMetricName (fqName : string)
  | ErrLabelName (label fqName : string)
  | ErrDuplicateLabels
  | ErrCardinality (expected got : nat)
  | ErrLabelValueUTF8 (value : string).

(** An argument of a [log.Printf] call. *)
Inductive log_arg : Type :=
  | ArgErr (e : error)
  | ArgInt (n : Z)
  | ArgStr (s : string).

(** One line of the log: the format string and its arguments. *)
Record log_line := LogLine { format : string; args : list log_arg }.

(* ===================================================================== *)
(** ** The Prometheus client library, as far as the exporter calls it *)
(* ===================================================================== *)

Module prometheus.

(** A metric descriptor.  [NewDesc] never fails: a descriptor built from
    bad arguments carries the error, which surfaces when the descriptor
    is used. *)
Record Desc := mkDesc {
  fqName : string;
  help : string;
  variableLabels : list string;
  err : option error
}.

Inductive ValueType := CounterValue | GaugeValue | UntypedValue.

(** A constant metric: one sample. *)
Record Metric := mkMetric {
  desc : Desc;
  valType : ValueType;
  value : Float64.float64;
  labelValues : list string
}.

Definition name_byte (colon : bool) (c : ascii) : bool :=
  Bytes.is_lower c || Bytes.is_upper c || (Bytes.code c =? 95)
  || (colon && (Bytes.code c =? 58)).

(** A metric name: [[a-zA-Z_:][a-zA-Z0-9_:]*]. *)
Definition IsValidMetricName (n : string) : bool :=
  match n with
  | EmptyString => false
  | String c r =>
      name_byte true c
      && Bytes.all (fun b => name_byte true b || Bytes.is_digit b) r
  end.

(** A label name: [[a-zA-Z_][a-zA-Z0-9_]*], not starting with [__]. *)
Definition checkLabelName (l : string) : bool :=
  match l with
  | EmptyString => false
  | String c r =>
      name_byte false c
      && Bytes.all (fun b => name_byte false b || Bytes.is_digit b) r
  end
  && negb (Bytes.HasPrefix l "__").

Fixpoint has_duplicate (l : list string) : bool :=
  match l with
  | [] => false
  | x :: r => (if decide (x ∈ r) then true else false) || has_duplicate r
  end.

(** [NewDesc(fqName, help, variableLabels, nil)]. *)
Definition NewDesc (fqName help : string) (variableLabels : list string)
  : Desc :=
  let d := mkDesc fqName help variableLabels in
  if negb (IsValidMetricName fqName) then d (Some (ErrMetricName fqName))
  else
    match List.find (fun l => negb (checkLabelName l)) variableLabels with
    | Some l => d (Some (ErrLabelName l fqName))
    | None =>
        if has_duplicate variableLabels then d (Some ErrDuplicateLabels)
        else d None
    end.

Definition validateLabelValues (vals : list string) (expected : nat)
  : option error :=
  if negb (length vals =? expected)%nat
  then Some (ErrCardinality expected (length vals))
  else
    match List.find (fun v => negb (Bytes.ValidString v)) vals with
    | Some v => Some (ErrLabelValueUTF8 v)
    | None => None
    end.

(** [NewConstMetric(desc, valueType, value, labelValues...)]. *)
Definition NewConstMetric (d : Desc) (t : ValueType)
    (v : Float64.float64) (labelValues : list string) : Metric + error :=
  match err d with
  | Some e => inr e
  | None =>
      match validateLabelValues labelValues (length (variableLabels d)) with
      | Some e => inr e
      | None => inl (mkMetric d t v labelValues)
      end
  end.

End prometheus.

(* ===================================================================== *)
(** ** The collector *)
(* ===================================================================== *)

Module Collector.

Record httpStatsCollector := mk {
  url : string;
  timeout : Z;
  dnsLookup : prometheus.Desc;
  tcpConnection : prometheus.Desc;
  tlsHandshake : prometheus.Desc;
  serverProcessing : prometheus.Desc;
  contentTransfer : prometheus.Desc;
  ttfb : prometheus.Desc
}.

End Collector.

Abbreviation httpStatsCollector := Collector.httpStatsCollector.

Definition newHTTPStatsCollector (url : string) (timeout : Z)
  : httpStatsCollector :=
  {| Collector.url := url;
     Collector.timeout := timeout;
     Collector.dnsLookup :=
       prometheus.NewDesc "dns_lookup_time"
         "A gauge of the DNS lookup durations(ms)" ["status_code"];
     Collector.tcpConnection :=
       prometheus.NewDesc "tcp_handshake_time"
         "A gauge of the TCP handshake duration(ms)" ["status_code"];
     Collector.tlsHandshake :=
       prometheus.NewDesc "tls_handshake_time"
         "A gauge of the TLS handshake duration(ms)" ["status_code"];
     Collector.serverProcessing :=
       prometheus.NewDesc "server_processing_time"
         "A gauge of the server processing duration(ms)" ["status_code"];
     Collector.contentTransfer :=
       prometheus.NewDesc "content_transfer_time"
         "A gauge of the content transfer duration(ms)" ["status_code"];
     Collector.ttfb :=
       prometheus.NewDesc "ttfb"
         "A gauge of the content transfer duration(ms)" ["status_code"] |}.

Definition Describe (c : httpStatsCollector) : list prometheus.Desc :=
  [ Collector.dnsLookup c; Collector.tcpConnection c;
    Collector.tlsHandshake c; Collector.serverProcessing c;
    Collector.contentTransfer c; Collector.ttfb c ].

(** The status-class label, lines 185-200 of [Collect]: five tests in a
    row, each overwriting the label. *)
Definition statusClass (StatusCode : Z) : string :=
  let statusCode := "unknown" in
  let statusCode :=
    if (100 <=? StatusCode) && (StatusCode <=? 199) then "1xx" else statusCode in
  let statusCode :=
    if (200 <=? StatusCode) && (StatusCode <=? 299) then "2xx" else statusCode in
  let statusCode :=
    if (300 <=? StatusCode) && (StatusCode <=? 399) then "3xx" else statusCode in
  let statusCode :=
    if (400 <=? StatusCode) && (StatusCode <=? 499) then "4xx" else statusCode in
  let statusCode :=
    if (500 <=? StatusCode) && (StatusCode <=? 599) then "5xx" else statusCode in
  statusCode.

(* ===================================================================== *)
(** ** Effects: the clock, the log, the response body, the channel *)
(* ===================================================================== *)

(** The body of the response of the one fetch a scrape makes. *)
Inductive body_state := NoBody | BodyOpen | BodyClosed.

(** What a scrape changes as it runs. *)
Record state := mkState {
  ticks : nat;                      (* calls of [time.Now] made so far *)
  logged : list log_line;           (* lines written by package [log] *)
  body : body_state;                (* the response body *)
  sent : list prometheus.Metric     (* metrics sent on [ch], in order *)
}.

Definition initial : state := mkState 0 [] NoBody [].

(** How a call ends: it returns, the process exits ([log.Fatalf] calls
    [os.Exit(1)]), or the goroutine panics. *)
Inductive outcome (A : Type) : Type :=
  | Returns (a : A) (st : state)
  | Exits (status : Z) (st : state)
  | Panics (what : string) (st : state).

Arguments Returns {A} a st.
Arguments Exits {A} status st.
Arguments Panics {A} what st.

Definition M (A : Type) : Type := state -> outcome A.

#[export] Instance M_ret : MRet M := fun A a st => Returns a st.

#[export] Instance M_bind : MBind M := fun A B k m st =>
  match m st with
  | Returns a st' => k a st'
  | Exits n st' => Exits n st'
  | Panics what st' => Panics what st'
  end.

Definition panic {A} (what : string) : M A := fun st => Panics what st.

Definition log_Printf (fmt : string) (a : list log_arg) : M unit :=
  fun st =>
    Returns tt (mkState (ticks st) (logged st ++ [LogLine fmt a])
                        (body st) (sent st)).

(** [log.Fatalf]: [Printf], then [os.Exit(1)]; deferred calls do not run. *)
Definition log_Fatalf {A} (fmt : string) (a : list log_arg) : M A :=
  fun st =>
    Exits 1 (mkState (ticks st) (logged st ++ [LogLine fmt a])
                     (body st) (sent st)).

(** [ch <- m]. *)
Definition send (m : prometheus.Metric) : M unit :=
  fun st =>
    Returns tt (mkState (ticks st) (logged st) (body st) (sent st ++ [m])).

(** How many metrics have been sent so far. *)
Definition sent_count : M nat :=
  fun st => Returns (length (sent st)) st.

(** The metrics sent after the first [n]. *)
Definition gathered_since (n : nat) : M (list prometheus.Metric) :=
  fun st => Returns (drop n (sent st)) st.

(** [resp.Body.Close()]. *)
Definition Body_Close : M unit :=
  fun st => Returns tt (mkState (ticks st) (logged st) BodyClosed (sent st)).

Definition set_body (b : body_state) : M unit :=
  fun st => Returns tt (mkState (ticks st) (logged st) b (sent st)).

(** [defer cleanup] in front of [rest]: [cleanup] runs when [rest] returns
    and when it panics, not when the process exits. *)
Definition defer {A} (cleanup : M unit) (rest : M A) : M A :=
  fun st =>
    match rest st with
    | Returns a st' =>
        match cleanup st' with
        | Returns _ st'' => Returns a st''
        | Exits n st'' => Exits n st''
        | Panics what st'' => Panics what st''
        end
    | Exits n st' => Exits n st'
    | Panics what st' =>
        match cleanup st' with
        | Returns _ st'' => Panics what st''
        | Exits n st'' => Exits n st''
        | Panics what' st'' => Panics what' st''
        end
    end.

(* ===================================================================== *)
(** ** The world outside the exporter *)
(* ===================================================================== *)

(** [tls.ConnectionState], as far as the exporter reads it. *)
Record ConnectionState := { PeerCertificates : list Certificate }.

(** The points of a fetch at which the transport calls a hook of the
    [httptrace.ClientTrace] that [visit] installs. *)
Inductive Event : Type :=
  | EvDNSStart
  | EvDNSDone
  | EvConnectStart
  | EvConnectDone
  | EvTLSHandshakeStart
  | EvTLSHandshakeDone (cs : ConnectionState) (err : option error)
  | EvGotConn
  | EvGotFirstResponseByte.

(** How a fetch ends. *)
Inductive fetched : Type :=
  | Responded (StatusCode : Z)          (* a response, its body open *)
  | Failed (e : error)        (* no response; the error of [client.Do] *)
  | RedirectsExhausted (StatusCode : Z) (location : string)
      (* the last response, its body closed, and the URL asked last *).

Record World := {
  (** The clock: the value of the [n]-th call of [time.Now]. *)
  clock : nat -> Time;
  (** The later steps of [url.Parse] (authority, host, port, escapes,
      fragment) on a URL that passed the first ones: their error, or the
      text that the parsed URL is written back as (its [String()], any
      password masked). *)
  url_rest : string -> string + error;
  (** One fetch of a URL under a deadline ([None]: no deadline): the
      hooks the transport calls, in order, and how the fetch ends. *)
  roundTrip : string -> option Duration -> list Event * fetched
}.

(** [time.Now()]. *)
Definition Now (w : World) : M Time :=
  fun st =>
    Returns (clock w (ticks st))
            (mkState (S (ticks st)) (logged st) (body st) (sent st)).

(* ===================================================================== *)
(** ** [net/url] and [net/http], as far as the exporter calls them *)
(* ===================================================================== *)

Module url.

(** A parsed URL: its scheme, the text it was parsed from, and the text
    it is written back as in the errors of the client. *)
Record URL := { Scheme : string; raw : string; text : string }.

(** A byte below the space, or DEL. *)
Definition is_CTL (c : ascii) : bool :=
  (Bytes.code c <? 32) || (Bytes.code c =? 127).

Definition stringContainsCTLByte (s : string) : bool := Bytes.any is_CTL s.

(** [getScheme]: split a leading [scheme:] off; [i] is the index of the
    first byte of [s] in the whole URL, [acc] the bytes before it. *)
Fixpoint getScheme_from (i : nat) (acc s whole : string)
  : (string * string) + error :=
  match s with
  | EmptyString => inl (EmptyString, whole)
  | String c r =>
      if Bytes.is_lower c || Bytes.is_upper c then
        getScheme_from (S i) (acc ++ String c EmptyString) r whole
      else if Bytes.is_digit c || (Bytes.code c =? 43)
              || (Bytes.code c =? 45) || (Bytes.code c =? 46) then
        if (i =? 0)%nat then inl (EmptyString, whole)
        else getScheme_from (S i) (acc ++ String c EmptyString) r whole
      else if Bytes.code c =? 58 then
        if (i =? 0)%nat then inr ErrMissingScheme
        else inl (acc, r)
      else inl (EmptyString, whole)
  end.

Definition getScheme (rawURL : string) : (string * string) + error :=
  getScheme_from 0 EmptyString rawURL rawURL.

(** [url.Parse]: the fragment is cut off, a control byte is refused, the
    scheme is split off and lowered; a URL with nothing after the scheme
    and no fragment is accepted there and is written back as the scheme
    and its colon; any other goes through the later steps, whose verdict
    the world gives. *)
Definition Parse (w : World) (rawURL : string) : URL + error :=
  let '(u, frag) := Bytes.Cut "#" rawURL in
  if stringContainsCTLByte u then inr (ErrURL "parse" u ErrControlCharacter)
  else if String.eqb u "*" && String.eqb frag "" then
    inl {| Scheme := ""; raw := rawURL; text := "*" |}
  else
    match getScheme u with
    | inr e => inr (ErrURL "parse" u e)
    | inl (scheme, rest) =>
        let scheme := Bytes.ToLower scheme in
        if String.eqb rest "" && String.eqb frag "" then
          inl {| Scheme := scheme; raw := rawURL;
                 text := if String.eqb scheme "" then ""
                         else scheme ++ ":" |}
        else
          match url_rest w rawURL with
          | inr e => inr (ErrURL "parse" u e)
          | inl written =>
              inl {| Scheme := scheme; raw := rawURL; text := written |}
          end
    end.

End url.

Module http.

Record Request := { Method : string; URL : url.URL }.

Record Response := { StatusCode : Z }.

Record Client := { Timeout : Duration }.

(** [http.NewRequest(method, url, nil)] for a valid method: it fails
    exactly when the URL does not parse. *)
Definition NewRequest (w : World) (method rawURL : string)
  : Request + error :=
  match url.Parse w rawURL with
  | inr e => inr e
  | inl u => inl {| Method := method; URL := u |}
  end.

(** [Client.deadline]: a timeout that is not positive sets no deadline. *)
Definition deadline (c : Client) : option Duration :=
  if 0 <? Timeout c then Some (Timeout c) else None.

End http.

(* ===================================================================== *)
(** ** The probe: [visit] *)
(* ===================================================================== *)

Definition set_Start (t : Time) (s : stats) : stats :=
  mkStats (tlsCert s) t (DNSStart s) (DNSDone s) (ConnectStart s)
    (ConnectDone s) (TLSHandshakeStart s) (TLSHandshakeDone s) (GotConn s)
    (GotFirstResponseByte s) (Finish s).

Definition set_DNSStart (t : Time) (s : stats) : stats :=
  mkStats (tlsCert s) (Start s) t (DNSDone s) (ConnectStart s)
    (ConnectDone s) (TLSHandshakeStart s) (TLSHandshakeDone s) (GotConn s)
    (GotFirstResponseByte s) (Finish s).

Definition set_DNSDone (t : Time) (s : stats) : stats :=
  mkStats (tlsCert s) (Start s) (DNSStart s) t (ConnectStart s)
    (ConnectDone s) (TLSHandshakeStart s) (TLSHandshakeDone s) (GotConn s)
    (GotFirstResponseByte s) (Finish s).

Definition set_ConnectStart (t : Time) (s : stats) : stats :=
  mkStats (tlsCert s) (Start s) (DNSStart s) (DNSDone s) t
    (ConnectDone s) (TLSHandshakeStart s) (TLSHandshakeDone s) (GotConn s)
    (GotFirstResponseByte s) (Finish s).

Definition set_ConnectDone (t : Time) (s : stats) : stats :=
  mkStats (tlsCert s) (Start s) (DNSStart s) (DNSDone s) (ConnectStart s)
    t (TLSHandshakeStart s) (TLSHandshakeDone s) (GotConn s)
    (GotFirstResponseByte s) (Finish s).

Definition set_TLSHandshakeStart (t : Time) (s : stats) : stats :=
  mkStats (tlsCert s) (Start s) (DNSStart s) (DNSDone s) (ConnectStart s)
    (ConnectDone s) t (TLSHandshakeDone s) (GotConn s)
    (GotFirstResponseByte s) (Finish s).

Definition set_TLSHandshakeDone (t : Time) (s : stats) : stats :=
  mkStats (tlsCert s) (Start s) (DNSStart s) (DNSDone s) (ConnectStart s)
    (ConnectDone s) (TLSHandshakeStart s) t (GotConn s)
    (GotFirstResponseByte s) (Finish s).

Definition set_GotConn (t : Time) (s : stats) : stats :=
  mkStats (tlsCert s) (Start s) (DNSStart s) (DNSDone s) (ConnectStart s)
    (ConnectDone s) (TLSHandshakeStart s) (TLSHandshakeDone s) t
    (GotFirstResponseByte s) (Finish s).

Definition set_GotFirstResponseByte (t : Time) (s : stats) : stats :=
  mkStats (tlsCert s) (Start s) (DNSStart s) (DNSDone s) (ConnectStart s)
    (ConnectDone s) (TLSHandshakeStart s) (TLSHandshakeDone s) (GotConn s)
    t (Finish s).

Definition set_Finish (t : Time) (s : stats) : stats :=
  mkStats (tlsCert s) (Start s) (DNSStart s) (DNSDone s) (ConnectStart s)
    (ConnectDone s) (TLSHandshakeStart s) (TLSHandshakeDone s) (GotConn s)
    (GotFirstResponseByte s) t.

Definition set_tlsCert (c : Certificate) (s : stats) : stats :=
  mkStats (Some c) (Start s) (DNSStart s) (DNSDone s) (ConnectStart s)
    (ConnectDone s) (TLSHandshakeStart s) (TLSHandshakeDone s) (GotConn s)
    (GotFirstResponseByte s) (Finish s).

Section Probe.

Variable w : World.

(** The hooks of the [httptrace.ClientTrace] of [visit], each a function
    on the trace [s] that the closures share. *)
Definition on_DNSStart (s : stats) : M stats :=
  t ← Now w; mret (set_DNSStart t s).

Definition on_DNSDone (s : stats) : M stats :=
  t ← Now w; mret (set_DNSDone t s).

Definition on_ConnectStart (s : stats) : M stats :=
  t ← Now w; mret (set_ConnectStart t s).

Definition on_ConnectDone (s : stats) : M stats :=
  t ← Now w; mret (set_ConnectDone t s).

Definition on_TLSHandshakeStart (s : stats) : M stats :=
  t ← Now w; mret (set_TLSHandshakeStart t s).

(** The index expression [cs.PeerCertificates[0]] panics on an empty
    slice. *)
Definition on_TLSHandshakeDone (cs : ConnectionState) (err : option error)
    (s : stats) : M stats :=
  t ← Now w;
  let s := set_TLSHandshakeDone t s in
  match err with
  | None =>
      match PeerCertificates cs !! 0%nat with
      | Some c => mret (set_tlsCert c s)
      | None => panic "index out of range [0] with length 0"
      end
  | Some _ => mret s
  end.

Definition on_GotConn (s : stats) : M stats :=
  t ← Now w; mret (set_GotConn t s).

Definition on_GotFirstResponseByte (s : stats) : M stats :=
  t ← Now w; mret (set_GotFirstResponseByte t s).

Definition hook (ev : Event) (s : stats) : M stats :=
  match ev with
  | EvDNSStart => on_DNSStart s
  | EvDNSDone => on_DNSDone s
  | EvConnectStart => on_ConnectStart s
  | EvConnectDone => on_ConnectDone s
  | EvTLSHandshakeStart => on_TLSHandshakeStart s
  | EvTLSHandshakeDone cs err => on_TLSHandshakeDone cs err s
  | EvGotConn => on_GotConn s
  | EvGotFirstResponseByte => on_GotFirstResponseByte s
  end.

Fixpoint hooks (evs : list Event) (s : stats) : M stats :=
  match evs with
  | [] => mret s
  | ev :: rest => s' ← hook ev s; hooks rest s'
  end.

(** [client.Do(req)] with the trace of [visit] in the request context.
    A scheme other than [http] and [https] is refused before anything
    is sent, with an error that names the URL as it is written back;
    otherwise the transport makes the fetch, calling the hooks on the
    way, and an error is the one the client reports. *)
Definition client_Do (client : http.Client) (req : http.Request)
    (s : stats) : M (stats * option http.Response * option error) :=
  let u := http.URL req in
  let scheme := url.Scheme u in
  if negb (String.eqb scheme "http" || String.eqb scheme "https") then
    mret (s, None,
          Some (ErrURL "Get" (url.text u) (ErrUnsupportedScheme scheme)))
  else
    let '(evs, result) := roundTrip w (url.raw u) (http.deadline client) in
    s ← hooks evs s;
    match result with
    | Responded code =>
        set_body BodyOpen;;
        mret (s, Some {| http.StatusCode := code |}, None)
    | Failed e =>
        mret (s, None, Some e)
    | RedirectsExhausted code location =>
        set_body BodyClosed;;
        mret (s, Some {| http.StatusCode := code |},
              Some (ErrURL "Get" location ErrRedirects))
    end.

(** The client of lines 107-112: the ambient proxy, and the timeout
    [time.Duration(c.timeout) * time.Second], an [int64] product. *)
Definition visit_client (c : httpStatsCollector) : http.Client :=
  {| http.Timeout := Int64.wrap64 (Collector.timeout c * Second) |}.

Definition visit (c : httpStatsCollector)
  : M (stats * option http.Response * option error) :=
  let s := zero_stats in
  match http.NewRequest w "GET" (Collector.url c) with
  | inr err => log_Fatalf "Request generation error: %s" [ArgErr err]
  | inl req =>
      let client := visit_client c in
      t ← Now w;
      let s := set_Start t s in
      '(s, resp, err) ← client_Do client req s;
      t ← Now w;
      let s := set_Finish t s in
      match err with
      | Some e => mret (s, resp, Some e)
      | None => mret (s, resp, None)
      end
  end.

End Probe.

(* ===================================================================== *)
(** ** The collector's [Collect] *)
(* ===================================================================== *)

Section Scrape.

Variable w : World.

(** One of the six blocks of [Collect]: build the sample; on an error log
    it and return from [Collect], otherwise send the sample and go on
    with [next]. *)
Definition emit (d : prometheus.Desc) (v : Float64.float64)
    (statusCode : string) (complaint : string) (next : M unit) : M unit :=
  match prometheus.NewConstMetric d prometheus.GaugeValue v [statusCode] with
  | inr err => log_Printf complaint [ArgErr err]
  | inl metric => send metric;; next
  end.

Definition Collect (c : httpStatsCollector) : M unit :=
  '(s, resp, err) ← visit w c;
  match err with
  | Some e => log_Printf "URL visit error: %s" [ArgErr e]
  | None =>
      match resp with
      | None => panic "invalid memory address or nil pointer dereference"
      | Some resp =>
          defer Body_Close (
            let statusCode := statusClass (http.StatusCode resp) in
            emit (Collector.dnsLookup c) (ns2ms (dnsLookup s)) statusCode
              "dnsLookup metric generation error: %s" (
            emit (Collector.tcpConnection c) (ns2ms (tcpConnection s))
              statusCode "tcpConnection metric generation error: %s" (
            emit (Collector.tlsHandshake c) (ns2ms (tlsHandshake s))
              statusCode "tlsHandshke metric generation error: %s" (
            emit (Collector.serverProcessing c) (ns2ms (serverProcessing s))
              statusCode "serverProcessing metric generation error: %s" (
            emit (Collector.contentTransfer c) (ns2ms (contentTransfer s))
              statusCode "contentTransfer metric generation error: %s" (
            emit (Collector.ttfb c) (ns2ms (ttfb s)) statusCode
              "ttfb metric generation error: %s" (mret tt)))))))
      end
  end.

End Scrape.

(* ===================================================================== *)
(** ** The scrape handler *)
(* ===================================================================== *)

Module strconv.

Definition digit (c : ascii) : Z := Bytes.code c - 48.

(** The loop of the fast path of [Atoi]: digits only, no overflow to
    fear on fewer than 19 bytes. *)
Fixpoint digits (acc : Z) (s : string) : option Z :=
  match s with
  | EmptyString => Some acc
  | String c r =>
      if Bytes.is_digit c then digits (acc * 10 + digit c) r else None
  end.

(** How the loop of [ParseUint] ends. *)
Inductive scan : Type :=
  | Scanned (n : Z)
  | BadSyntax
  | OutOfRange.

Definition maxUint64 : Z := 2 ^ 64 - 1.

(** The loop of [ParseUint] in base 10, byte by byte: a byte that is not
    a digit is a syntax error; a digit that would take the number past 64
    bits is a range error, reported there, whatever follows. *)
Fixpoint ParseUint_from (n : Z) (s : string) : scan :=
  match s with
  | EmptyString => Scanned n
  | String c r =>
      if negb (Bytes.is_digit c) then BadSyntax
      else if maxUint64 / 10 + 1 <=? n then OutOfRange
      else
        let n1 := n * 10 + digit c in
        if maxUint64 <? n1 then OutOfRange else ParseUint_from n1 r
  end.

Definition ParseUint (s : string) : scan :=
  match s with
  | EmptyString => BadSyntax
  | _ => ParseUint_from 0 s
  end.

(** [ParseInt(s, 10, 0)], with the function name that [Atoi] puts in the
    error. *)
Definition ParseInt (s0 : string) : Z * option error :=
  match s0 with
  | EmptyString => (0, Some (ErrSyntax "Atoi" s0))
  | String c r =>
      let '(neg, s) :=
        if Bytes.code c =? 43 then (false, r)
        else if Bytes.code c =? 45 then (true, r)
        else (false, s0) in
      match ParseUint s with
      | BadSyntax => (0, Some (ErrSyntax "Atoi" s0))
      | scanned =>
          let un := match scanned with Scanned n => n | _ => maxUint64 end in
          let cutoff := 2 ^ 63 in
          if negb neg && (cutoff <=? un)
          then (cutoff - 1, Some (ErrRange "Atoi" s0))
          else if neg && (cutoff <? un)
          then (- cutoff, Some (ErrRange "Atoi" s0))
          else (if neg then - un else un, None)
      end
  end.

(** [strconv.Atoi]: a fast path for 1 to 18 bytes, [ParseInt] for the
    rest.  On a syntax error the number returned is 0; out of the range
    of [int] it is the nearest bound. *)
Definition Atoi (s0 : string) : Z * option error :=
  let sLen := String.length s0 in
  if (0 <? sLen)%nat && (sLen <? 19)%nat then
    match s0 with
    | EmptyString => (0, Some (ErrSyntax "Atoi" s0))
    | String c r =>
        let signed := (Bytes.code c =? 45) || (Bytes.code c =? 43) in
        let s := if signed then r else s0 in
        if signed && String.eqb s "" then (0, Some (ErrSyntax "Atoi" s0))
        else
          match digits 0 s with
          | None => (0, Some (ErrSyntax "Atoi" s0))
          | Some n => (if Bytes.code c =? 45 then - n else n, None)
          end
    end
  else ParseInt s0.

End strconv.

(** [url.Values.Get]: the first value of the key, or the empty string. *)
Definition Values_Get (v : gmap string (list string)) (key : string) : string :=
  match v !! key with
  | Some (x :: _) => x
  | _ => ""
  end.

(** What the handler writes to the scraper. *)
Inductive reply : Type :=
  | ReplyError (message : string) (code : Z)
  | ReplyMetrics (samples : list prometheus.Metric)
  | ReplyGatherError (duplicate : prometheus.Metric)
      (* status 500: the metric was collected before with the same name
         and label values *).

Section Handler.

Variable w : World.

(** Lines 280-295 of [prometheusReqsHandler]: from the query to the
    collector.  The [timeout] declared by [:=] inside the [if] block is
    a second variable; the one given to the collector is the first. *)
Definition scrape_collector (params : gmap string (list string))
  : M (reply + httpStatsCollector) :=
  let targetURL := Values_Get params "target" in
  if String.eqb targetURL "" then
    mret (inl (ReplyError "Target param is missing" 400))
  else
    let timeout := 10 in
    (if negb (String.eqb (Values_Get params "timeout") "") then
       let '(timeout', err) := strconv.Atoi (Values_Get params "timeout") in
       match err with
       | Some _ =>
           log_Printf "Invalid timeout parameter. Use default timeout: %d"
             [ArgInt timeout']
       | None => mret tt
       end
     else mret tt);;
    let collector := newHTTPStatsCollector targetURL timeout in
    mret (inr collector).

(** Two descriptors of one name must agree on the help text and the
    label names. *)
Definition same_dimensions (d d' : prometheus.Desc) : bool :=
  String.eqb (prometheus.help d) (prometheus.help d')
  && bool_decide (prometheus.variableLabels d = prometheus.variableLabels d').

(** The loop of [Register] over the descriptors of the collector, in a
    registry that holds nothing else: the complaint, if any. *)
Fixpoint register_descs (seen descs : list prometheus.Desc) : option string :=
  match descs with
  | [] => None
  | d :: rest =>
      match prometheus.err d with
      | Some _ => Some "descriptor is invalid"
      | None =>
          if existsb (fun d' =>
                        String.eqb (prometheus.fqName d') (prometheus.fqName d)
                        && negb (same_dimensions d' d)) seen
          then Some "descriptor has different label names or a different help string"
          else register_descs (seen ++ [d]) rest
      end
  end.

(** [registry.MustRegister(collector)]: a complaint of [Register] makes
    it panic. *)
Definition MustRegister (c : httpStatsCollector) : M unit :=
  match register_descs [] (Describe c) with
  | Some complaint => panic complaint
  | None => mret tt
  end.

Definition same_sample (m m' : prometheus.Metric) : bool :=
  String.eqb (prometheus.fqName (prometheus.desc m))
             (prometheus.fqName (prometheus.desc m'))
  && bool_decide (prometheus.labelValues m = prometheus.labelValues m').

(** The first metric that was collected before with the same name and
    label values. *)
Fixpoint first_duplicate (seen l : list prometheus.Metric)
  : option prometheus.Metric :=
  match l with
  | [] => None
  | m :: rest =>
      if existsb (same_sample m) seen then Some m
      else first_duplicate (seen ++ [m]) rest
  end.

Fixpoint insert_by_name (m : prometheus.Metric) (l : list prometheus.Metric)
  : list prometheus.Metric :=
  match l with
  | [] => [m]
  | m' :: rest =>
      if String.leb (prometheus.fqName (prometheus.desc m))
                    (prometheus.fqName (prometheus.desc m'))
      then m :: l
      else m' :: insert_by_name m rest
  end.

(** The metric families in the order of the exposition: by name. *)
Definition sort_by_name (l : list prometheus.Metric)
  : list prometheus.Metric :=
  foldr insert_by_name [] l.

(** [registry.Gather()]: the collector is asked once, on a channel of
    the registry's own; what it sent comes back sorted by name, unless
    one metric came twice. *)
Definition Gather (c : httpStatsCollector)
  : M (list prometheus.Metric + prometheus.Metric) :=
  before ← sent_count;
  Collect w c;;
  samples ← gathered_since before;
  match first_duplicate [] samples with
  | Some m => mret (inr m)
  | None => mret (inl (sort_by_name samples))
  end.

(** Lines 297-301: a fresh registry, the collector registered, and the
    exposition handler, which gathers once and writes the metrics of
    this scrape, or answers 500 when gathering failed. *)
Definition serve (c : httpStatsCollector) : M reply :=
  MustRegister c;;
  gathering ← Gather c;
  match gathering with
  | inl samples => mret (ReplyMetrics samples)
  | inr m => mret (ReplyGatherError m)
  end.

Definition prometheusReqsHandler (params : gmap string (list string))
  : M reply :=
  r ← scrape_collector params;
  match r with
  | inl early => mret early
  | inr collector => serve collector
  end.

End Handler.

(* ===================================================================== *)
(** ** Some worlds and inputs, for the examples *)
(* ===================================================================== *)

Module Examples.

(** How a URL with no user information and nothing to escape is written
    back: with its scheme in lower case. *)
Definition written_back (u : string) : string + error :=
  match url.getScheme u with
  | inr e => inr e
  | inl (scheme, rest) =>
      if String.eqb scheme "" then inl u
      else inl (Bytes.ToLower scheme ++ ":" ++ rest)
  end.

Definition written (u : string) : string :=
  match written_back u with
  | inl t => t
  | inr _ => u
  end.

(** A clock that advances by 1.5 ms between two readings. *)
Definition steady_clock (n : nat) : Time :=
  63900000000000000000 + 1500000 * Z.of_nat n.

(** A plain-HTTP target that answers 200. *)
Definition plain_world : World :=
  {| clock := steady_clock;
     url_rest := written_back;
     roundTrip := fun _ _ =>
       ([EvDNSStart; EvDNSDone; EvConnectStart; EvConnectDone; EvGotConn;
         EvGotFirstResponseByte], Responded 200) |}.

(** A host whose name does not resolve. *)
Definition down_world : World :=
  {| clock := steady_clock;
     url_rest := written_back;
     roundTrip := fun u _ =>
       ([EvDNSStart; EvDNSDone],
        Failed (ErrURL "Get" (written u) (ErrNetwork "no such host"))) |}.

(** A TLS target whose connection state lists no peer certificate. *)
Definition bare_tls_world : World :=
  {| clock := steady_clock;
     url_rest := written_back;
     roundTrip := fun _ _ =>
       ([EvDNSStart; EvDNSDone; EvConnectStart; EvConnectDone;
         EvTLSHandshakeStart;
         EvTLSHandshakeDone {| PeerCertificates := [] |} None;
         EvGotConn; EvGotFirstResponseByte], Responded 200) |}.

(** A collector whose second descriptor was built from a name with a
    space in it. *)
Definition flawed_collector : httpStatsCollector :=
  let c := newHTTPStatsCollector "http://example.com" 10 in
  Collector.mk (Collector.url c) (Collector.timeout c)
    (Collector.dnsLookup c)
    (prometheus.NewDesc "tcp handshake time"
       "A gauge of the TCP handshake duration(ms)" ["status_code"])
    (Collector.tlsHandshake c) (Collector.serverProcessing c)
    (Collector.contentTransfer c) (Collector.ttfb c).

(** A trace of a plain-HTTP fetch. *)
Definition plain_trace : stats :=
  mkStats None 100 200 300 400 500 0 0 600 700 800.

(** The trace that [visit] records in [plain_world]. *)
Definition plain_probe : stats :=
  mkStats None (steady_clock 0) (steady_clock 1) (steady_clock 2)
    (steady_clock 3) (steady_clock 4) zero zero (steady_clock 5)
    (steady_clock 6) (steady_clock 7).

(** The query [target=http://example.com&timeout=30]. *)
Definition query_with_timeout : gmap string (list string) :=
  <[ "timeout" := ["30"] ]> (<[ "target" := ["http://example.com"] ]> ∅).

End Examples.

(* ===================================================================== *)
(** ** Vocabulary of the properties *)
(* ===================================================================== *)

(** [same_output st st']: nothing was logged or sent from [st] to [st']. *)
Definition same_output (st st' : state) : Prop :=
  logged st' = logged st /\ sent st' = sent st.

(** [quiet st st']: moreover the response body is as it was. *)
Definition quiet (st st' : state) : Prop :=
  same_output st st' /\ body st' = body st.

(** The state [st] after one more line of log. *)
Definition with_line (fmt : string) (a : list log_arg) (st : state) : state :=
  mkState (ticks st) (logged st ++ [LogLine fmt a]) (body st) (sent st).

(** A gauge sample as the design document describes it: a named metric
    with the one label [status_code], whose value is a duration in
    nanoseconds divided, as a double, by 1,000,000. *)
Definition gauge (name help label : string) (d : Duration)
  : prometheus.Metric :=
  {| prometheus.desc :=
       {| prometheus.fqName := name;
          prometheus.help := help;
          prometheus.variableLabels := ["status_code"];
          prometheus.err := None |};
     prometheus.valType := prometheus.GaugeValue;
     prometheus.value :=
       Float64.div (Float64.of_int d) (Float64.of_int 1000000);
     prometheus.labelValues := [label] |}.

(** The six samples of a successful probe, in the order of emission. *)
Definition six_samples (s : stats) (label : string)
  : list prometheus.Metric :=
  [ gauge "dns_lookup_time"
      "A gauge of the DNS lookup durations(ms)" label (dnsLookup s);
    gauge "tcp_handshake_time"
      "A gauge of the TCP handshake duration(ms)" label (tcpConnection s);
    gauge "tls_handshake_time"
      "A gauge of the TLS handshake duration(ms)" label (tlsHandshake s);
    gauge "server_processing_time"
      "A gauge of the server processing duration(ms)" label
      (serverProcessing s);
    gauge "content_transfer_time"
      "A gauge of the content transfer duration(ms)" label
      (contentTransfer s);
    gauge "ttfb"
      "A gauge of the content transfer duration(ms)" label (ttfb s) ].

(** The six constructions that [Collect] attempts, in order. *)
Definition attempts (c : httpStatsCollector) (s : stats) (label : string)
  : list (prometheus.Metric + error) :=
  map (fun '(d, v) =>
         prometheus.NewConstMetric d prometheus.GaugeValue (ns2ms v) [label])
    [ (Collector.dnsLookup c, dnsLookup s);
      (Collector.tcpConnection c, tcpConnection s);
      (Collector.tlsHandshake c, tlsHandshake s);
      (Collector.serverProcessing c, serverProcessing s);
      (Collector.contentTransfer c, contentTransfer s);
      (Collector.ttfb c, ttfb s) ].

(** The samples built before the first construction that fails. *)
Fixpoint until_error (l : list (prometheus.Metric + error))
  : list prometheus.Metric :=
  match l with
  | inl m :: rest => m :: until_error rest
  | _ => []
  end.

(** The samples built after skipping every construction that fails. *)
Fixpoint skipping_errors (l : list (prometheus.Metric + error))
  : list prometheus.Metric :=
  match l with
  | inl m :: rest => m :: skipping_errors rest
  | inr _ :: rest => skipping_errors rest
  | [] => []
  end.

(* ===================================================================== *)
(** ** The webhook client (package [slack]) *)
(* ===================================================================== *)

Module slack.

Record Attachment := mkAttachment {
  Title : string;
  Pretext : string;
  Text : string;
  Color : string
}.

Record Payload := mkPayload {
  Channel : string;
  Username : string;
  Attachments : list Attachment
}.

Module Client.

Record SlackClient := mk {
  WebhookURL : string;
  Payload : Payload
}.

End Client.

Abbreviation SlackClient := Client.SlackClient.

(** [http.Response], as far as [Post] reads it. *)
Record Response := { StatusCode : Z; Status : string }.

Definition StatusOK : Z := 200.

(** What [Post] returns when it fails: the error of a call it made, or
    its own complaint about the status of the answer. *)
Inductive post_error : Type :=
  | Underlying (e : error)
  | WebhookStatus (status : string).

(** The libraries and the network of the webhook client. *)
Record Web := {
  (** The verdict of the later steps of [url.ParseRequestURI] (authority,
      host, port, escapes) on a URI that passed the first ones. *)
  uri_rest : string -> option error;
  (** [json.Marshal] of a payload. *)
  Marshal : Payload -> string + error;
  (** [http.PostForm]: the answer to the form posted to a URL. *)
  PostForm : string -> gmap string (list string) -> Response + error
}.

(** The text before the first [?], or all of it. *)
Definition before_query (rest : string) : string := fst (Bytes.Cut "?" rest).

(** [url.ParseRequestURI]: a control byte and the empty string are
    refused; so is a URI with no scheme that does not start with a slash;
    one with a scheme and no leading slash is taken as opaque. *)
Definition ParseRequestURI (web : Web) (rawURL : string) : option error :=
  if url.stringContainsCTLByte rawURL
  then Some (ErrURL "parse" rawURL ErrControlCharacter)
  else if String.eqb rawURL ""
  then Some (ErrURL "parse" rawURL (ErrURLSyntax "empty url"))
  else if String.eqb rawURL "*" then None
  else
    match url.getScheme rawURL with
    | inr e => Some (ErrURL "parse" rawURL e)
    | inl (scheme, rest) =>
        if negb (Bytes.HasPrefix (before_query rest) "/") then
          if negb (String.eqb scheme "") then None
          else Some (ErrURL "parse" rawURL
                       (ErrURLSyntax "invalid URI for request"))
        else
          match uri_rest web rawURL with
          | Some e => Some (ErrURL "parse" rawURL e)
          | None => None
          end
    end.

Definition NewSlack (web : Web) (webhookURL channel username : string)
  : SlackClient + error :=
  match ParseRequestURI web webhookURL with
  | Some err => inr err
  | None =>
      inl {| Client.WebhookURL := webhookURL;
             Client.Payload :=
               {| Channel := channel; Username := username;
                  Attachments := [] |} |}
  end.

(** [s.Payload.Attachments = attachments]. *)
Definition set_Attachments (a : list Attachment) (s : SlackClient)
  : SlackClient :=
  {| Client.WebhookURL := Client.WebhookURL s;
     Client.Payload :=
       {| Channel := Channel (Client.Payload s);
          Username := Username (Client.Payload s);
          Attachments := a |} |}.

(** [Post]: the receiver as it is left, and the error returned. *)
Definition Post (web : Web) (title pretext text color : string)
    (s : SlackClient) : M (SlackClient * option post_error) :=
  let attachments :=
    [ {| Title := title; Pretext := pretext; Text := text;
         Color := color |} ] in
  let s := set_Attachments attachments s in
  match Marshal web (Client.Payload s) with
  | inr err => mret (s, Some (Underlying err))
  | inl body =>
      match PostForm web (Client.WebhookURL s) {[ "payload" := [body] ]} with
      | inr err => mret (s, Some (Underlying err))
      | inl res =>
          set_body BodyOpen;;
          defer Body_Close (
            if negb (StatusCode res =? StatusOK)
            then mret (s, Some (WebhookStatus (Status res)))
            else mret (s, None))
      end
  end.

End slack.

(* ===================================================================== *)
(** ** More vocabulary *)
(* ===================================================================== *)

(** The eight checkpoints that the hooks write. *)
Definition checkpoints (s : stats) : list Time :=
  [ DNSStart s; DNSDone s; ConnectStart s; ConnectDone s;
    TLSHandshakeStart s; TLSHandshakeDone s; GotConn s;
    GotFirstResponseByte s ].

(** A clock that never goes back. *)
Definition monotone_clock (w : World) : Prop :=
  forall n m : nat, (n <= m)%nat -> clock w n <= clock w m.

Definition is_TLS_event (ev : Event) : bool :=
  match ev with
  | EvTLSHandshakeStart | EvTLSHandshakeDone _ _ => true
  | _ => false
  end.

(** The hooks of a fetch that resolves, connects, optionally shakes hands
    and gets its first byte, each once and in that order. *)
Definition fetch_events (tls : list Event) : list Event :=
  [EvDNSStart; EvDNSDone; EvConnectStart; EvConnectDone] ++ tls
  ++ [EvGotConn; EvGotFirstResponseByte].

(** The TLS part of such a fetch: none, or a handshake that fails or
    presents a certificate. *)
Inductive tls_part : list Event -> Prop :=
  | tls_none : tls_part []
  | tls_failed cs e :
      tls_part [EvTLSHandshakeStart; EvTLSHandshakeDone cs (Some e)]
  | tls_done c rest :
      tls_part [EvTLSHandshakeStart;
                EvTLSHandshakeDone {| PeerCertificates := c :: rest |} None].

(** The state of an outcome, however the call ended. *)
Definition final_state {A} (o : outcome A) : state :=
  match o with
  | Returns _ st | Exits _ st | Panics _ st => st
  end.

(** [t] is the zero time or a reading of the clock at a tick from [lo]
    up to, not including, [hi]. *)
Definition read_between (w : World) (lo hi : nat) (t : Time) : Prop :=
  t = zero \/ exists n : nat, (lo <= n < hi)%nat /\ t = clock w n.

(** A TLS handshake that ended well on a connection that lists no peer
    certificate. *)
Definition bare_handshake (ev : Event) : Prop :=
  exists cs, ev = EvTLSHandshakeDone cs None /\ PeerCertificates cs = [].

(** A line feed, as a string. *)
Definition newline : string := String "010"%char EmptyString.

(** The attachment that one call of [Post] builds. *)
Definition posted (title pretext text color : string) : slack.Attachment :=
  slack.mkAttachment title pretext text color.

Module SlackExamples.

(** A webhook that answers 200 to every form and whose URLs all pass the
    later checks; the payload is marshalled to its channel name. *)
Definition ok_web : slack.Web :=
  {| slack.uri_rest := fun _ => None;
     slack.Marshal := fun p => inl (slack.Channel p);
     slack.PostForm := fun _ _ =>
       inl {| slack.StatusCode := 200; slack.Status := "200 OK" |} |}.

(** A webhook that answers 404. *)
Definition missing_web : slack.Web :=
  {| slack.uri_rest := fun _ => None;
     slack.Marshal := fun p => inl (slack.Channel p);
     slack.PostForm := fun _ _ =>
       inl {| slack.StatusCode := 404; slack.Status := "404 Not Found" |} |}.

Definition hook_url : string := "https://hooks.slack.com/services/T0/B0/xyz".

Definition a_client : slack.SlackClient :=
  slack.Client.mk hook_url (slack.mkPayload "webmon" "test" []).

End SlackExamples.

(** The complaints of the six blocks of [Collect], in order. *)
Definition complaints : list string :=
  [ "dnsLookup metric generation error: %s";
    "tcpConnection metric generation error: %s";
    "tlsHandshke metric generation error: %s";
    "serverProcessing metric generation error: %s";
    "contentTransfer metric generation error: %s";
    "ttfb metric generation error: %s" ].

(** The first construction that fails: its rank and its error. *)
Fixpoint first_error (l : list (prometheus.Metric + error))
  : option (nat * error) :=
  match l with
  | [] => None
  | inr e :: _ => Some (0%nat, e)
  | inl _ :: rest =>
      match first_error rest with
      | Some (i, e) => Some (S i, e)
      | None => None
      end
  end.

(** The line that the first failing construction leaves in the log. *)
Definition complaint_line (l : list (prometheus.Metric + error))
  : list log_line :=
  match first_error l with
  | Some (i, e) => [LogLine (nth i complaints "") [ArgErr e]]
  | None => []
  end.

(** The six samples of a successful probe in the order of the reply: by
    name. *)
Definition six_samples_by_name (s : stats) (label : string)
  : list prometheus.Metric :=
  [ gauge "content_transfer_time"
      "A gauge of the content transfer duration(ms)" label
      (contentTransfer s);
    gauge "dns_lookup_time"
      "A gauge of the DNS lookup durations(ms)" label (dnsLookup s);
    gauge "server_processing_time"
      "A gauge of the server processing duration(ms)" label
      (serverProcessing s);
    gauge "tcp_handshake_time"
      "A gauge of the TCP handshake duration(ms)" label (tcpConnection s);
    gauge "tls_handshake_time"
      "A gauge of the TLS handshake duration(ms)" label (tlsHandshake s);
    gauge "ttfb"
      "A gauge of the content transfer duration(ms)" label (ttfb s) ].

(* ===================================================================== *)
(** * Properties *)
(* ===================================================================== *)

(** ** Arithmetic of instants and durations *)

Lemma wrap64_in_range z : Int64.in_range (Int64.wrap64 z).
Proof.
  unfold Int64.in_range, Int64.wrap64, Int64.min_int, Int64.max_int.
  pose proof (Z.mod_pos_bound (z + 2 ^ 63) (2 ^ 64) ltac:(lia)). lia.
Qed.


Lemma Sub_in_range t u : Int64.in_range (Sub t u).
Proof.
  unfold Sub, Int64.in_range, minDuration, maxDuration.
  repeat case_match; unfold Int64.min_int, Int64.max_int in *; lia.
Qed.

Lemma Sub_nonneg t u : u <= t -> 0 <= Sub t u.
Proof.
  intros Hle. unfold Sub, minDuration, maxDuration.
  repeat case_match; unfold Int64.min_int, Int64.max_int in *; lia.
Qed.

Lemma Sub_zero_zero : Sub zero zero = 0.
Proof. reflexivity. Qed.

(** ** What the steps of a scrape leave untouched *)

Lemma quiet_refl st : quiet st st.
Proof. repeat split. Qed.

Lemma quiet_trans st1 st2 st3 : quiet st1 st2 -> quiet st2 st3 -> quiet st1 st3.
Proof.
  intros [[L1 S1] B1] [[L2 S2] B2]. repeat split; congruence.
Qed.

Ltac run := unfold mbind, M_bind, mret, M_ret in *; cbn in *.

Lemma Now_spec w st :
  Now w st =
  Returns (clock w (ticks st))
          (mkState (S (ticks st)) (logged st) (body st) (sent st)).
Proof. reflexivity. Qed.

Lemma hook_quiet w ev s st s' st' :
  hook w ev s st = Returns s' st' -> quiet st st'.
Proof.
  destruct ev; cbn;
    unfold on_DNSStart, on_DNSDone, on_ConnectStart, on_ConnectDone,
      on_TLSHandshakeStart, on_TLSHandshakeDone, on_GotConn,
      on_GotFirstResponseByte; run;
    try (intros [= <- <-]; repeat split).
  destruct err as [e|]; [intros [= <- <-]; repeat split|].
  destruct (PeerCertificates cs !! 0%nat); [|discriminate].
  intros [= <- <-]; repeat split.
Qed.

Lemma hooks_quiet w evs : forall s st s' st',
  hooks w evs s st = Returns s' st' -> quiet st st'.
Proof.
  induction evs as [|ev evs IH]; intros s st s' st'; cbn.
  - run. intros [= <- <-]. apply quiet_refl.
  - run. destruct (hook w ev s st) as [s1 st1| |] eqn:Hev; try discriminate.
    intros Hrest. eapply quiet_trans.
    + eapply hook_quiet, Hev.
    + eapply IH, Hrest.
Qed.

(** The three ways in which [client.Do] returns. *)
Lemma client_Do_returns w client req s st s' resp err st' :
  client_Do w client req s st = Returns (s', resp, err) st' ->
  same_output st st' /\
  ((err = None /\ (exists code, resp = Some {| http.StatusCode := code |})
    /\ body st' = BodyOpen)
   \/ ((exists e, err = Some e) /\ resp = None /\ body st' = body st)
   \/ ((exists e, err = Some e) /\ resp <> None /\ body st' = BodyClosed)).
Proof.
  unfold client_Do.
  destruct (negb _).
  { run. intros [= <- <- <- <-]. split; [split; reflexivity|].
    right; left. eauto. }
  destruct (roundTrip w _ _) as [evs result]. run.
  destruct (hooks w evs s st) as [s1 st1| |] eqn:Hh; try discriminate.
  apply hooks_quiet in Hh as [[HL HS] HB].
  destruct result as [code|e|code]; cbn; intros [= <- <- <- <-]; cbn;
    (split; [split; assumption|]).
  - left. eauto.
  - right; left. eauto.
  - right; right. repeat split; eauto.
Qed.

Lemma visit_returns w c st s resp err st' :
  visit w c st = Returns (s, resp, err) st' ->
  same_output st st' /\
  ((err = None /\ (exists code, resp = Some {| http.StatusCode := code |})
    /\ body st' = BodyOpen)
   \/ ((exists e, err = Some e) /\ resp = None /\ body st' = body st)
   \/ ((exists e, err = Some e) /\ resp <> None /\ body st' = BodyClosed)).
Proof.
  unfold visit. destruct (http.NewRequest w "GET" (Collector.url c)) as [req|e].
  2:{ discriminate. }
  run.
  destruct (client_Do w (visit_client c) req _ _)
    as [[[s1 resp1] err1] st1| |] eqn:Hdo; try discriminate.
  apply client_Do_returns in Hdo as [[HL HS] Hcases]. cbn in HL, HS.
  destruct err1 as [e|]; intros [= <- <- <- <-]; cbn;
    (split; [split; assumption|]); exact Hcases.
Qed.

Lemma bind_returns {A B} (m : M A) (k : A -> M B) st a st' :
  m st = Returns a st' -> (m ≫= k) st = k a st'.
Proof. intros H. unfold mbind, M_bind. rewrite H. reflexivity. Qed.

Lemma visit_on_rejected_url w c e st :
  http.NewRequest w "GET" (Collector.url c) = inr e ->
  visit w c st
  = Exits 1 (with_line "Request generation error: %s" [ArgErr e] st).
Proof. intros H. unfold visit. rewrite H. reflexivity. Qed.

(** ** The derived durations *)

(** C5.  On a trace whose checkpoints are in the order of a fetch (the TLS
    checkpoints either unreached or in order between the connection and
    its acquisition), none of the six derived durations is negative. *)
Theorem durations_nonneg_of_ordered (s : stats) :
  ordered s ->
  0 <= dnsLookup s /\ 0 <= tcpConnection s /\ 0 <= tlsHandshake s /\
  0 <= serverProcessing s /\ 0 <= contentTransfer s /\ 0 <= ttfb s.
Proof.
  intros (H1 & H2 & H3 & H4 & H5 & H6 & H7 & Htls).
  unfold dnsLookup, tcpConnection, tlsHandshake, serverProcessing,
    contentTransfer, ttfb.
  repeat split; try (apply Sub_nonneg; lia).
  destruct Htls as [[-> ->] | (_ & Hle & _)].
  - rewrite Sub_zero_zero. lia.
  - apply Sub_nonneg, Hle.
Qed.

Lemma durations_nonneg_of_ordered_witness :
  ordered Examples.plain_trace /\
  0 <= dnsLookup Examples.plain_trace /\
  0 <= tcpConnection Examples.plain_trace /\
  0 <= tlsHandshake Examples.plain_trace /\
  0 <= serverProcessing Examples.plain_trace /\
  0 <= contentTransfer Examples.plain_trace /\
  0 <= ttfb Examples.plain_trace.
Proof.
  assert (Hord : ordered Examples.plain_trace).
  { unfold ordered, tls_ordered; cbn. repeat split; try lia. left. split; reflexivity. }
  split; [exact Hord|].
  apply (durations_nonneg_of_ordered Examples.plain_trace Hord).
Defined.

(** ** The status class *)

(** C4.  The label is by the hundreds of the status code: 1xx to 5xx for
    codes from 100 to 599, and unknown for every other code; so 204 is
    2xx, 404 is 4xx and 999 is unknown. *)
Theorem statusClass_by_hundreds (code : Z) :
  (100 <= code <= 199 -> statusClass code = "1xx") /\
  (200 <= code <= 299 -> statusClass code = "2xx") /\
  (300 <= code <= 399 -> statusClass code = "3xx") /\
  (400 <= code <= 499 -> statusClass code = "4xx") /\
  (500 <= code <= 599 -> statusClass code = "5xx") /\
  (code < 100 \/ 599 < code -> statusClass code = "unknown") /\
  statusClass 204 = "2xx" /\ statusClass 404 = "4xx" /\
  statusClass 999 = "unknown".
Proof.
  unfold statusClass.
  repeat split; try reflexivity; intros Hc;
    repeat match goal with
    | |- context [?a <=? ?b] =>
        destruct (Z.leb_spec a b); cbn [andb]
    end; try reflexivity; lia.
Qed.

Lemma statusClass_by_hundreds_witness :
  statusClass 503 = "5xx" /\ statusClass 42 = "unknown".
Proof.
  pose proof (statusClass_by_hundreds 503) as (_ & _ & _ & _ & H5 & _).
  pose proof (statusClass_by_hundreds 42) as (_ & _ & _ & _ & _ & Hu & _).
  split; [apply H5; lia | apply Hu; lia].
Defined.

Lemma statusClass_cases (code : Z) :
  statusClass code ∈ ["1xx"; "2xx"; "3xx"; "4xx"; "5xx"; "unknown"].
Proof.
  unfold statusClass.
  repeat match goal with
  | |- context [if ?b then _ else _] => destruct b
  end; set_solver.
Qed.

Lemma statusClass_ValidString (code : Z) :
  Bytes.ValidString (statusClass code) = true.
Proof.
  pose proof (statusClass_cases code) as H.
  repeat (apply elem_of_cons in H as [-> | H]; [reflexivity|]).
  inversion H.
Qed.

(** ** The collector *)

Lemma emit_built d v label complaint next :
  prometheus.err d = None ->
  length (prometheus.variableLabels d) = 1%nat ->
  Bytes.ValidString label = true ->
  emit d v label complaint next =
  (send (prometheus.mkMetric d prometheus.GaugeValue v [label]);; next).
Proof.
  intros He Hn Hl. unfold emit, prometheus.NewConstMetric.
  rewrite He, Hn. unfold prometheus.validateLabelValues. cbn.
  rewrite Hl. reflexivity.
Qed.

Lemma Collect_on_failure w c st s resp e st1 :
  visit w c st = Returns (s, resp, Some e) st1 ->
  Collect w c st = Returns tt (with_line "URL visit error: %s" [ArgErr e] st1).
Proof.
  intros Hv. unfold Collect. rewrite (bind_returns _ _ _ _ _ Hv). reflexivity.
Qed.

Lemma defer_close_returns (m : M unit) st st' :
  m st = Returns tt st' ->
  defer Body_Close m st =
  Returns tt (mkState (ticks st') (logged st') BodyClosed (sent st')).
Proof. intros H. unfold defer. rewrite H. reflexivity. Qed.

Lemma Collect_on_success w c st s code st1 :
  visit w c st = Returns (s, Some {| http.StatusCode := code |}, None) st1 ->
  exists st2,
    Collect w c st = Returns tt st2 /\
    sent st2 = (sent st1 ++ until_error (attempts c s (statusClass code)))%list /\
    body st2 = BodyClosed.
Proof.
  intros Hv. unfold Collect. rewrite (bind_returns _ _ _ _ _ Hv).
  cbv beta iota. unfold attempts, emit. cbn [map http.StatusCode].
  set (label := statusClass code).
  repeat match goal with
  | |- context [prometheus.NewConstMetric ?d ?t ?v ?l] =>
      destruct (prometheus.NewConstMetric d t v l) as [?m|?e]
  end;
  (eexists; split;
   [ apply defer_close_returns; reflexivity
   | split; [cbn; rewrite ?app_nil_r, <- ?app_assoc; reflexivity
            | reflexivity] ]).
Qed.

(** C2.  When the probe succeeds, [Collect] sends exactly six gauge
    samples, in the order dns_lookup_time, tcp_handshake_time,
    tls_handshake_time, server_processing_time, content_transfer_time,
    ttfb; each carries the one label status_code with the status class of
    the response, and the matching derived duration divided, as a double,
    by 1,000,000. *)
Theorem Collect_success_six_samples
    (w : World) (u : string) (timeout : Z) (st : state)
    (s : stats) (resp : option http.Response) (st1 : state) :
  visit w (newHTTPStatsCollector u timeout) st = Returns (s, resp, None) st1 ->
  exists code st2,
    resp = Some {| http.StatusCode := code |} /\
    Collect w (newHTTPStatsCollector u timeout) st = Returns tt st2 /\
    sent st2 = (sent st ++ six_samples s (statusClass code))%list /\
    length (six_samples s (statusClass code)) = 6%nat.
Proof.
  intros Hv.
  destruct (visit_returns _ _ _ _ _ _ _ Hv) as [[_ Hsent] Hcases].
  destruct Hcases as [(_ & [code ->] & _) | [([e He] & _) | ([e He] & _)]];
    try discriminate.
  exists code. eexists. split; [reflexivity|].
  unfold Collect. rewrite (bind_returns _ _ _ _ _ Hv). cbv beta iota.
  rewrite !emit_built by (first [reflexivity | apply statusClass_ValidString]).
  split; [reflexivity|]. cbn [sent]. rewrite Hsent.
  split; [|reflexivity].
  rewrite <- !app_assoc. reflexivity.
Qed.

Lemma MustRegister_new u timeout st :
  MustRegister (newHTTPStatsCollector u timeout) st = Returns tt st.
Proof. reflexivity. Qed.

Lemma Gather_on_failure w c st s resp e st1 :
  visit w c st = Returns (s, resp, Some e) st1 ->
  Gather w c st
  = Returns (inl []) (with_line "URL visit error: %s" [ArgErr e] st1).
Proof.
  intros Hv. unfold Gather.
  rewrite (bind_returns sent_count _ st (length (sent st)) st eq_refl).
  rewrite (bind_returns _ _ _ _ _ (Collect_on_failure _ _ _ _ _ _ _ Hv)).
  destruct (visit_returns _ _ _ _ _ _ _ Hv) as [[_ Hsent] _].
  unfold gathered_since, mbind, M_bind. cbn [sent with_line].
  rewrite Hsent, drop_all. reflexivity.
Qed.

Lemma serve_on_failure w u timeout st s resp e st1 :
  visit w (newHTTPStatsCollector u timeout) st = Returns (s, resp, Some e) st1 ->
  serve w (newHTTPStatsCollector u timeout) st
  = Returns (ReplyMetrics [])
      (with_line "URL visit error: %s" [ArgErr e] st1).
Proof.
  intros Hv. unfold serve.
  rewrite (bind_returns _ _ _ _ _ (MustRegister_new u timeout st)).
  rewrite (bind_returns _ _ _ _ _ (Gather_on_failure _ _ _ _ _ _ _ Hv)).
  reflexivity.
Qed.

Lemma Collect_on_rejected_url w c e st :
  http.NewRequest w "GET" (Collector.url c) = inr e ->
  Collect w c st
  = Exits 1 (with_line "Request generation error: %s" [ArgErr e] st).
Proof.
  intros H. unfold Collect, mbind, M_bind.
  rewrite (visit_on_rejected_url _ _ _ _ H). reflexivity.
Qed.

Lemma serve_on_rejected_url w u timeout e st :
  http.NewRequest w "GET" u = inr e ->
  serve w (newHTTPStatsCollector u timeout) st
  = Exits 1 (with_line "Request generation error: %s" [ArgErr e] st).
Proof.
  intros H. unfold serve.
  rewrite (bind_returns _ _ _ _ _ (MustRegister_new u timeout st)).
  unfold Gather, mbind, M_bind, sent_count.
  rewrite (Collect_on_rejected_url w (newHTTPStatsCollector u timeout) e st H).
  reflexivity.
Qed.

(** C3, refuted as stated: a configuration error is a probe failure that
    [Collect] does not survive.  For the target [:] no request can be
    built, and [Collect], and the handler with it, end the process
    instead of returning with an empty scrape. *)
Lemma Collect_bad_url_exits :
  Collect Examples.plain_world (newHTTPStatsCollector ":" 10) initial
  = Exits 1
      (mkState 0
         [LogLine "Request generation error: %s"
            [ArgErr (ErrURL "parse" ":" ErrMissingScheme)]] NoBody [])
  /\ prometheusReqsHandler Examples.plain_world
       (<[ "target" := [":"] ]> ∅) initial
     = Exits 1
         (mkState 0
            [LogLine "Request generation error: %s"
               [ArgErr (ErrURL "parse" ":" ErrMissingScheme)]] NoBody [])
  /\ ~ (forall w c st,
          (exists e, http.NewRequest w "GET" (Collector.url c) = inr e) ->
          exists st2, Collect w c st = Returns tt st2 /\ sent st2 = sent st).
Proof.
  split; [vm_compute; reflexivity|]. split; [vm_compute; reflexivity|].
  intros H.
  destruct (H Examples.plain_world (newHTTPStatsCollector ":" 10) initial)
    as (st2 & HC & _).
  - eexists. reflexivity.
  - vm_compute in HC. discriminate HC.
Qed.

(** C3, as the code has it.  When [visit] returns an error (a failure of
    the network, of DNS, of TLS, a timeout, or a target refused before
    the fetch), [Collect] logs the error, sends no sample and returns, and
    the scrape is served with an empty reply.  When no request can be
    built from the target, there is no such outcome: [Collect], and the
    serving of the scrape with it, end the process with status 1 after
    the one line "Request generation error". *)
Theorem Collect_failure_no_sample
    (w : World) (c : httpStatsCollector) (st : state) :
  (forall s resp e st1,
     visit w c st = Returns (s, resp, Some e) st1 ->
     let st2 := with_line "URL visit error: %s" [ArgErr e] st1 in
     Collect w c st = Returns tt st2
     /\ logged st2
        = (logged st ++ [LogLine "URL visit error: %s" [ArgErr e]])%list
     /\ sent st2 = sent st
     /\ (forall u timeout,
           c = newHTTPStatsCollector u timeout ->
           serve w c st = Returns (ReplyMetrics []) st2)) /\
  (forall e,
     http.NewRequest w "GET" (Collector.url c) = inr e ->
     let st2 := with_line "Request generation error: %s" [ArgErr e] st in
     Collect w c st = Exits 1 st2
     /\ (forall u timeout,
           c = newHTTPStatsCollector u timeout ->
           serve w c st = Exits 1 st2)).
Proof.
  split.
  - intros s resp e st1 Hv st2.
    destruct (visit_returns _ _ _ _ _ _ _ Hv) as [[Hlog Hsent] _].
    split; [exact (Collect_on_failure _ _ _ _ _ _ _ Hv)|].
    split; [subst st2; cbn; congruence|].
    split; [subst st2; cbn; congruence|].
    intros u timeout ->. apply (serve_on_failure _ _ _ _ _ _ _ _ Hv).
  - intros e Hreq st2. split; [exact (Collect_on_rejected_url _ _ _ _ Hreq)|].
    intros u timeout ->. exact (serve_on_rejected_url _ _ _ _ _ Hreq).
Qed.

(** C7, as the code has it.  When the probe succeeds, [Collect] sends the
    samples built before the first construction that fails, in order;
    at that failure it logs one line, the complaint of the failing block
    with the error, and returns, so that neither the failing sample nor
    any later one is sent.  The response body is closed whichever
    construction failed. *)
Theorem Collect_stops_at_first_error
    (w : World) (c : httpStatsCollector) (st : state)
    (s : stats) (code : Z) (st1 : state) :
  visit w c st = Returns (s, Some {| http.StatusCode := code |}, None) st1 ->
  exists st2,
    Collect w c st = Returns tt st2 /\
    sent st2 = (sent st1 ++ until_error (attempts c s (statusClass code)))%list /\
    logged st2
    = (logged st1 ++ complaint_line (attempts c s (statusClass code)))%list /\
    body st2 = BodyClosed.
Proof.
  intros Hv. unfold Collect. rewrite (bind_returns _ _ _ _ _ Hv).
  cbv beta iota. unfold attempts, emit, complaint_line.
  cbn [map http.StatusCode].
  set (label := statusClass code).
  repeat match goal with
  | |- context [prometheus.NewConstMetric ?d ?t ?v ?l] =>
      destruct (prometheus.NewConstMetric d t v l) as [?m|?e]
  end;
  (eexists; split;
   [ apply defer_close_returns; reflexivity
   | split; [cbn; rewrite ?app_nil_r, <- ?app_assoc; reflexivity|];
     split; [cbn; rewrite ?app_nil_r; reflexivity | reflexivity] ]).
Qed.

(** C8, as the code has it.  When [visit] returns a response and no error
    the body of the response is still open; it is [Collect] that closes
    it, by a deferred call that runs when [Collect] returns, whether or
    not every sample could be built.  When [visit] returns an error it
    leaves no body open that was not open before. *)
Theorem body_closed_by_Collect
    (w : World) (c : httpStatsCollector) (st : state)
    (s : stats) (resp : option http.Response) (err : option error)
    (st1 : state) :
  visit w c st = Returns (s, resp, err) st1 ->
  exists st2,
    Collect w c st = Returns tt st2 /\
    ((err = None /\ body st1 = BodyOpen /\ body st2 = BodyClosed)
     \/ (err <> None /\ body st2 = body st1
         /\ (body st1 = body st \/ body st1 = BodyClosed))).
Proof.
  intros Hv.
  destruct (visit_returns _ _ _ _ _ _ _ Hv) as [_ Hcases].
  destruct err as [e|].
  - eexists. split; [exact (Collect_on_failure _ _ _ _ _ _ _ Hv)|].
    right. split; [discriminate|]. split; [reflexivity|].
    destruct Hcases as [(He & _) | [(_ & _ & Hb) | (_ & _ & Hb)]];
      [discriminate | left | right]; exact Hb.
  - destruct Hcases as [(_ & [code ->] & Hopen) | [([e He] & _) | ([e He] & _)]];
      try discriminate.
    destruct (Collect_on_success _ _ _ _ _ _ Hv) as (st2 & H2 & _ & Hb).
    exists st2. split; [exact H2|]. left. auto.
Qed.

Lemma Collect_success_six_samples_witness :
  exists code st2,
    Some {| http.StatusCode := 200 |} = Some {| http.StatusCode := code |} /\
    Collect Examples.plain_world
      (newHTTPStatsCollector "http://example.com" 10) initial
    = Returns tt st2 /\
    sent st2 = (sent initial
                ++ six_samples Examples.plain_probe (statusClass code))%list /\
    length (six_samples Examples.plain_probe (statusClass code)) = 6%nat.
Proof.
  apply (Collect_success_six_samples Examples.plain_world
           "http://example.com" 10 initial Examples.plain_probe
           (Some {| http.StatusCode := 200 |})
           (mkState 8 [] BodyOpen [])).
  vm_compute. reflexivity.
Defined.

Lemma Collect_failure_no_sample_witness :
  (let c := newHTTPStatsCollector "http://example.com" 10 in
   let e := ErrURL "Get" "http://example.com" (ErrNetwork "no such host") in
   let st2 :=
     with_line "URL visit error: %s" [ArgErr e] (mkState 4 [] NoBody []) in
   Collect Examples.down_world c initial = Returns tt st2
   /\ logged st2 = [LogLine "URL visit error: %s" [ArgErr e]]
   /\ sent st2 = []
   /\ serve Examples.down_world c initial = Returns (ReplyMetrics []) st2) /\
  (let c := newHTTPStatsCollector ":" 10 in
   let st2 :=
     with_line "Request generation error: %s"
       [ArgErr (ErrURL "parse" ":" ErrMissingScheme)] initial in
   Collect Examples.down_world c initial = Exits 1 st2
   /\ serve Examples.down_world c initial = Exits 1 st2).
Proof.
  split.
  - intros c e st2.
    destruct (proj1 (Collect_failure_no_sample Examples.down_world c initial)
                (mkStats None (Examples.steady_clock 0)
                   (Examples.steady_clock 1) (Examples.steady_clock 2)
                   zero zero zero zero zero zero (Examples.steady_clock 3))
                None e (mkState 4 [] NoBody []))
      as (HC & Hlog & Hsent & Hserve).
    { vm_compute. reflexivity. }
    split; [exact HC|]. split; [exact Hlog|]. split; [exact Hsent|].
    exact (Hserve "http://example.com" 10 eq_refl).
  - intros c st2.
    destruct (proj2 (Collect_failure_no_sample Examples.down_world c initial)
                (ErrURL "parse" ":" ErrMissingScheme))
      as (HC & Hserve).
    { reflexivity. }
    split; [exact HC|]. exact (Hserve ":" 10 eq_refl).
Defined.

Lemma Collect_flawed_sends_one :
  match Collect Examples.plain_world Examples.flawed_collector initial with
  | Returns _ st2 =>
      map (fun m => prometheus.fqName (prometheus.desc m)) (sent st2)
      = ["dns_lookup_time"]
      /\ body st2 = BodyClosed
  | _ => False
  end.
Proof. vm_compute. split; reflexivity. Qed.

(** C7, refuted as stated: were a failed construction only skipped, the
    collector whose second descriptor is invalid would send five samples;
    it sends one. *)
Lemma Collect_does_not_skip_errors :
  ~ (forall w c st s code st1,
       visit w c st
       = Returns (s, Some {| http.StatusCode := code |}, None) st1 ->
       exists st2,
         Collect w c st = Returns tt st2 /\
         sent st2
         = (sent st1
            ++ skipping_errors (attempts c s (statusClass code)))%list).
Proof.
  intros H.
  destruct (H Examples.plain_world Examples.flawed_collector initial
              Examples.plain_probe 200 (mkState 8 [] BodyOpen []))
    as (st2 & HC & Hsent).
  { vm_compute. reflexivity. }
  pose proof Collect_flawed_sends_one as Hone. rewrite HC in Hone.
  destruct Hone as [Hnames _]. rewrite Hsent in Hnames.
  apply (f_equal (@length string)) in Hnames.
  vm_compute in Hnames. discriminate.
Qed.

Lemma Collect_stops_at_first_error_witness :
  exists st2,
    Collect Examples.plain_world Examples.flawed_collector initial
    = Returns tt st2 /\
    sent st2
    = ([] ++ until_error (attempts Examples.flawed_collector
                            Examples.plain_probe (statusClass 200)))%list /\
    logged st2
    = ([] ++ complaint_line (attempts Examples.flawed_collector
                               Examples.plain_probe (statusClass 200)))%list /\
    body st2 = BodyClosed.
Proof.
  apply (Collect_stops_at_first_error Examples.plain_world
           Examples.flawed_collector initial Examples.plain_probe 200
           (mkState 8 [] BodyOpen [])).
  vm_compute. reflexivity.
Defined.

(** C8, refuted as stated: after a successful fetch [visit] returns with
    the body of the response open. *)
Lemma visit_returns_open_body :
  visit Examples.plain_world (newHTTPStatsCollector "http://example.com" 10)
    initial
  = Returns (Examples.plain_probe, Some {| http.StatusCode := 200 |}, None)
      (mkState 8 [] BodyOpen [])
  /\ ~ (forall w c st r st1,
          visit w c st = Returns r st1 -> body st1 <> BodyOpen).
Proof.
  assert (Hv : visit Examples.plain_world
                 (newHTTPStatsCollector "http://example.com" 10) initial
               = Returns (Examples.plain_probe,
                          Some {| http.StatusCode := 200 |}, None)
                   (mkState 8 [] BodyOpen [])).
  { vm_compute. reflexivity. }
  split; [exact Hv|].
  intros H. apply (H _ _ _ _ _ Hv). reflexivity.
Qed.

Lemma body_closed_by_Collect_witness :
  exists st2,
    Collect Examples.plain_world
      (newHTTPStatsCollector "http://example.com" 10) initial
    = Returns tt st2 /\
    ((@None error = None /\ body (mkState 8 [] BodyOpen []) = BodyOpen
      /\ body st2 = BodyClosed)
     \/ (@None error <> None /\ body st2 = body (mkState 8 [] BodyOpen [])
         /\ (body (mkState 8 [] BodyOpen []) = body initial
             \/ body (mkState 8 [] BodyOpen []) = BodyClosed))).
Proof.
  apply (body_closed_by_Collect Examples.plain_world
           (newHTTPStatsCollector "http://example.com" 10) initial
           Examples.plain_probe (Some {| http.StatusCode := 200 |}) None
           (mkState 8 [] BodyOpen [])).
  vm_compute. reflexivity.
Defined.

(** ** The probe *)

Lemma Parse_empty w :
  url.Parse w ""
  = inl {| url.Scheme := ""; url.raw := ""; url.text := "" |}.
Proof. reflexivity. Qed.

(** C1, refuted as stated: the URL [:] has no scheme before its colon, the
    request cannot be built, and [visit] ends the process instead of
    returning an error. *)
Lemma visit_bad_url_exits :
  visit Examples.plain_world (newHTTPStatsCollector ":" 10) initial
  = Exits 1
      (mkState 0
         [LogLine "Request generation error: %s"
            [ArgErr (ErrURL "parse" ":" ErrMissingScheme)]] NoBody [])
  /\ ~ (forall w u timeout st,
          (exists e, http.NewRequest w "GET" u = inr e) ->
          exists s resp e st1,
            visit w (newHTTPStatsCollector u timeout) st
            = Returns (s, resp, Some e) st1).
Proof.
  split; [reflexivity|].
  intros H.
  destruct (H Examples.plain_world ":" 10 initial) as (s & resp & e & st1 & Hv).
  - eexists. reflexivity.
  - discriminate Hv.
Qed.

(** C1, as the code has it.  A target URL from which no request can be
    built makes [visit] log the error and end the process with status 1.
    The empty string is not such a URL: the request is built, the fetch is
    refused for its missing scheme, and [visit] returns that error with no
    response, having logged and sent nothing. *)
Theorem visit_url_outcomes (w : World) (c : httpStatsCollector) (st : state) :
  (forall e,
     http.NewRequest w "GET" (Collector.url c) = inr e ->
     visit w c st
     = Exits 1 (with_line "Request generation error: %s" [ArgErr e] st)) /\
  (Collector.url c = "" ->
     exists s st1,
       visit w c st
       = Returns (s, None, Some (ErrURL "Get" "" (ErrUnsupportedScheme "")))
           st1
       /\ quiet st st1).
Proof.
  split.
  - intros e. apply visit_on_rejected_url.
  - intros Hu. unfold visit, http.NewRequest. rewrite Hu, Parse_empty.
    do 2 eexists. split; [reflexivity|]. repeat split.
Qed.

Lemma visit_url_outcomes_witness :
  visit Examples.plain_world (newHTTPStatsCollector ":" 10) initial
  = Exits 1
      (with_line "Request generation error: %s"
         [ArgErr (ErrURL "parse" ":" ErrMissingScheme)] initial)
  /\ exists s st1,
       visit Examples.plain_world (newHTTPStatsCollector "" 10) initial
       = Returns (s, None, Some (ErrURL "Get" "" (ErrUnsupportedScheme "")))
           st1
       /\ quiet initial st1.
Proof.
  split.
  - apply (proj1 (visit_url_outcomes Examples.plain_world
                    (newHTTPStatsCollector ":" 10) initial)).
    reflexivity.
  - apply (proj2 (visit_url_outcomes Examples.plain_world
                    (newHTTPStatsCollector "" 10) initial)).
    reflexivity.
Defined.




(** The deadline of the client is what the transport is given: in a world
    that answers with the deadline it was given, a timeout of zero seconds
    is seen as no deadline and one of 30 seconds as 30 seconds. *)
Example visit_passes_deadline :
  let w := {| clock := Examples.steady_clock;
              url_rest := Examples.written_back;
              roundTrip := fun u limit =>
                ([], match limit with
                     | None =>
                         Failed (ErrURL "Get" u (ErrNetwork "no deadline"))
                     | Some d => Responded (d / Second)
                     end) |} in
  (exists s st1,
     visit w (newHTTPStatsCollector "http://example.com" 0) initial
     = Returns (s, None,
                Some (ErrURL "Get" "http://example.com"
                        (ErrNetwork "no deadline"))) st1) /\
  (exists s st1,
     visit w (newHTTPStatsCollector "http://example.com" 30) initial
     = Returns (s, Some {| http.StatusCode := 30 |}, None) st1).
Proof. split; do 2 eexists; vm_compute; reflexivity. Qed.

(** C10.  The hook of the end of the TLS handshake panics exactly when the
    handshake reports no error and the connection state lists no peer
    certificate; with no error and at least one certificate it records the
    time and the first certificate. *)
Theorem TLSHandshakeDone_panics_iff
    (w : World) (cs : ConnectionState) (err : option error)
    (s : stats) (st : state) :
  ((exists what st', on_TLSHandshakeDone w cs err s st = Panics what st')
   <-> err = None /\ PeerCertificates cs = []) /\
  (forall c rest,
     err = None -> PeerCertificates cs = c :: rest ->
     on_TLSHandshakeDone w cs err s st
     = Returns (set_tlsCert c (set_TLSHandshakeDone (clock w (ticks st)) s))
         (mkState (S (ticks st)) (logged st) (body st) (sent st))).
Proof.
  unfold on_TLSHandshakeDone. run. split.
  - split.
    + intros (what & st' & H). destruct err as [e|]; [discriminate|].
      split; [reflexivity|].
      destruct (PeerCertificates cs) as [|c rest]; [reflexivity|discriminate].
    + intros [-> ->]. cbn. eauto.
  - intros c rest -> ->. reflexivity.
Qed.

Lemma TLSHandshakeDone_panics_iff_witness :
  (exists what st',
     on_TLSHandshakeDone Examples.bare_tls_world {| PeerCertificates := [] |}
       None zero_stats initial = Panics what st')
  /\ on_TLSHandshakeDone Examples.bare_tls_world
       {| PeerCertificates := ["leaf"; "intermediate"] |} None zero_stats
       initial
     = Returns (set_tlsCert "leaf"
                  (set_TLSHandshakeDone (Examples.steady_clock 0) zero_stats))
         (mkState 1 [] NoBody []).
Proof.
  split.
  - apply (proj1 (TLSHandshakeDone_panics_iff Examples.bare_tls_world
                    {| PeerCertificates := [] |} None zero_stats initial)).
    split; reflexivity.
  - apply (proj2 (TLSHandshakeDone_panics_iff Examples.bare_tls_world
                    {| PeerCertificates := ["leaf"; "intermediate"] |} None
                    zero_stats initial) "leaf" ["intermediate"]);
      reflexivity.
Defined.

(** A fetch over TLS whose connection state lists no certificate makes the
    whole probe panic. *)
Example visit_panics_without_certificate :
  exists st',
    visit Examples.bare_tls_world
      (newHTTPStatsCollector "https://example.com" 10) initial
    = Panics "index out of range [0] with length 0" st'.
Proof. eexists. vm_compute. reflexivity. Qed.

(** ** The scrape handler *)

(** C9.  Whatever the [timeout] parameter of the query says, the collector
    that the handler registers and serves is built with a timeout of 10
    seconds: the value parsed from the parameter goes to a variable of the
    inner block and is dropped. *)
Theorem handler_timeout_always_10
    (w : World) (params : gmap string (list string)) (st : state) :
  Values_Get params "target" <> "" ->
  exists st',
    scrape_collector params st
    = Returns (inr (newHTTPStatsCollector (Values_Get params "target") 10)) st'
    /\ Collector.timeout
         (newHTTPStatsCollector (Values_Get params "target") 10) = 10
    /\ prometheusReqsHandler w params st
       = serve w (newHTTPStatsCollector (Values_Get params "target") 10) st'.
Proof.
  intros Htarget. unfold prometheusReqsHandler, scrape_collector.
  destruct (String.eqb_spec (Values_Get params "target") "") as [Heq|_];
    [contradiction|].
  destruct (negb _).
  - destruct (strconv.Atoi _) as [n [e|]]; run;
      (eexists; repeat split; reflexivity).
  - run. eexists; repeat split; reflexivity.
Qed.

Lemma handler_timeout_always_10_witness :
  exists st',
    scrape_collector Examples.query_with_timeout initial
    = Returns (inr (newHTTPStatsCollector
                      (Values_Get Examples.query_with_timeout "target") 10))
        st'
    /\ Collector.timeout
         (newHTTPStatsCollector
            (Values_Get Examples.query_with_timeout "target") 10) = 10
    /\ prometheusReqsHandler Examples.plain_world
         Examples.query_with_timeout initial
       = serve Examples.plain_world
           (newHTTPStatsCollector
              (Values_Get Examples.query_with_timeout "target") 10) st'.
Proof.
  apply (handler_timeout_always_10 Examples.plain_world
           Examples.query_with_timeout initial).
  vm_compute. discriminate.
Defined.

(** The parameter [timeout=30] parses to 30, and is not used. *)
Example timeout_30_is_dropped :
  strconv.Atoi (Values_Get Examples.query_with_timeout "timeout") = (30, None)
  /\ scrape_collector Examples.query_with_timeout initial
     = Returns (inr (newHTTPStatsCollector "http://example.com" 10)) initial.
Proof. split; vm_compute; reflexivity. Qed.

(* ===================================================================== *)
(** * Further properties of the code *)
(* ===================================================================== *)

(** ** The trace that [visit] records *)

Lemma read_between_weaken w lo hi hi' t :
  (hi <= hi')%nat -> read_between w lo hi t -> read_between w lo hi' t.
Proof.
  intros Hle [Hz | (n & Hn & Ht)]; [left; exact Hz|].
  right. exists n. split; [lia | exact Ht].
Qed.

Lemma read_between_now w lo st :
  (lo <= ticks st)%nat ->
  read_between w lo (S (ticks st)) (clock w (ticks st)).
Proof. intros Hlo. right. exists (ticks st). split; [lia | reflexivity]. Qed.

Ltac split_checkpoints H :=
  unfold checkpoints in H;
  repeat match type of H with
  | Forall _ (_ :: _) =>
      let Hx := fresh "Hx" in apply Forall_cons in H as [Hx H]
  end.

Ltac checkpoint_goal :=
  unfold checkpoints; cbn;
  repeat (apply Forall_cons; split);
  first [ apply Forall_nil_2
        | apply read_between_now; assumption
        | eapply read_between_weaken; [|eassumption]; lia ].

(** One hook reads the clock once, writes its own checkpoint and leaves
    [Start] and [Finish] alone. *)
Lemma hook_trace w ev s st s' st' lo :
  hook w ev s st = Returns s' st' ->
  (lo <= ticks st)%nat ->
  Forall (read_between w lo (ticks st)) (checkpoints s) ->
  ticks st' = S (ticks st) /\ Start s' = Start s /\ Finish s' = Finish s /\
  Forall (read_between w lo (ticks st')) (checkpoints s').
Proof.
  intros Hev Hlo Hall. split_checkpoints Hall.
  destruct ev; cbn in Hev;
    unfold on_DNSStart, on_DNSDone, on_ConnectStart, on_ConnectDone,
      on_TLSHandshakeStart, on_TLSHandshakeDone, on_GotConn,
      on_GotFirstResponseByte in Hev; run;
    try (injection Hev as <- <-; repeat split; checkpoint_goal).
  destruct err as [e|].
  - injection Hev as <- <-; repeat split; checkpoint_goal.
  - destruct (PeerCertificates cs !! 0%nat); [|discriminate].
    injection Hev as <- <-; repeat split; checkpoint_goal.
Qed.

Lemma hooks_trace w evs : forall s st s' st' lo,
  hooks w evs s st = Returns s' st' ->
  (lo <= ticks st)%nat ->
  Forall (read_between w lo (ticks st)) (checkpoints s) ->
  (ticks st <= ticks st')%nat /\ Start s' = Start s /\ Finish s' = Finish s /\
  Forall (read_between w lo (ticks st')) (checkpoints s').
Proof.
  induction evs as [|ev evs IH]; intros s st s' st' lo; cbn.
  - run. intros [= <- <-] _ Hall. auto.
  - run. destruct (hook w ev s st) as [s1 st1| |] eqn:Hev; try discriminate.
    intros Hrest Hlo Hall.
    destruct (hook_trace _ _ _ _ _ _ _ Hev Hlo Hall) as (Ht & HS & HF & Hall1).
    destruct (IH _ _ _ _ lo Hrest ltac:(lia) Hall1) as (Ht' & HS' & HF' & Hall').
    repeat split; [lia | congruence | congruence | exact Hall'].
Qed.

Lemma client_Do_trace w client req s st s' resp err st' lo :
  client_Do w client req s st = Returns (s', resp, err) st' ->
  (lo <= ticks st)%nat ->
  Forall (read_between w lo (ticks st)) (checkpoints s) ->
  (ticks st <= ticks st')%nat /\ Start s' = Start s /\ Finish s' = Finish s /\
  Forall (read_between w lo (ticks st')) (checkpoints s').
Proof.
  unfold client_Do. destruct (negb _).
  { run. intros [= <- <- <- <-]. auto. }
  destruct (roundTrip w _ _) as [evs result]. run.
  destruct (hooks w evs s st) as [s1 st1| |] eqn:Hh; try discriminate.
  intros Hres Hlo Hall.
  destruct (hooks_trace _ _ _ _ _ _ _ Hh Hlo Hall) as (Ht & HS & HF & Hall1).
  destruct result; cbn in Hres; injection Hres as <- <- <- <-; cbn; auto.
Qed.

(** Where the readings of a returned trace come from: [Start] is the
    first reading, [Finish] the last, every other checkpoint is zero or a
    reading in between. *)
Lemma visit_trace w c st s resp err st1 :
  visit w c st = Returns (s, resp, err) st1 ->
  exists last : nat,
    (ticks st < last)%nat /\ ticks st1 = S last /\
    Start s = clock w (ticks st) /\ Finish s = clock w last /\
    Forall (read_between w (S (ticks st)) last) (checkpoints s).
Proof.
  unfold visit.
  destruct (http.NewRequest w "GET" (Collector.url c)) as [req|e];
    [|discriminate].
  run.
  destruct (client_Do w (visit_client c) req _ _)
    as [[[s1 resp1] err1] st2| |] eqn:Hdo; try discriminate.
  eapply (client_Do_trace _ _ _ _ _ _ _ _ _ (S (ticks st))) in Hdo
    as (Ht & HS & HF & Hall); cbn in *;
    [| lia | repeat constructor; left; reflexivity].
  intros Hret. exists (ticks st2).
  destruct err1; injection Hret as <- <- <- <-; cbn;
    (repeat split; [lia | exact HS | exact Hall]).
Qed.

Lemma bracketed_of_read_between w lo hi t :
  monotone_clock w -> (lo <= hi)%nat ->
  read_between w (S lo) hi t ->
  t = zero \/ clock w lo <= t <= clock w hi.
Proof.
  intros Hmono Hle [Hz | (n & Hn & ->)]; [left; exact Hz|].
  right. split; apply Hmono; lia.
Qed.

Lemma visit_bracket w c st s resp err st1 :
  monotone_clock w ->
  visit w c st = Returns (s, resp, err) st1 ->
  Start s <= Finish s /\
  Forall (fun t => t = zero \/ Start s <= t <= Finish s) (checkpoints s).
Proof.
  intros Hmono Hv.
  destruct (visit_trace _ _ _ _ _ _ _ Hv) as (last & Hlt & _ & -> & -> & Hall).
  split; [apply Hmono; lia|].
  eapply Forall_impl; [exact Hall|].
  intros t Ht. eapply bracketed_of_read_between; eauto. lia.
Qed.

(** X1.  With a clock that never goes back, the trace that [visit]
    returns starts no later than it finishes, and each of the eight
    checkpoints written by the hooks is either unreached (zero) or lies
    between [Start] and [Finish]. *)
Theorem visit_checkpoints_bracketed
    (w : World) (c : httpStatsCollector) (st : state)
    (s : stats) (resp : option http.Response) (err : option error)
    (st1 : state) :
  monotone_clock w ->
  visit w c st = Returns (s, resp, err) st1 ->
  Start s <= Finish s /\
  Forall (fun t => t = zero \/ Start s <= t <= Finish s) (checkpoints s).
Proof. apply visit_bracket. Qed.

Lemma steady_clock_monotone : monotone_clock Examples.plain_world.
Proof.
  intros n m Hnm. cbn. unfold Examples.steady_clock. lia.
Qed.

Lemma plain_visit :
  visit Examples.plain_world (newHTTPStatsCollector "http://example.com" 10)
    initial
  = Returns (Examples.plain_probe, Some {| http.StatusCode := 200 |}, None)
      (mkState 8 [] BodyOpen []).
Proof. vm_compute. reflexivity. Qed.

Lemma visit_checkpoints_bracketed_witness :
  Start Examples.plain_probe <= Finish Examples.plain_probe /\
  Forall (fun t => t = zero
                   \/ Start Examples.plain_probe <= t
                      <= Finish Examples.plain_probe)
    (checkpoints Examples.plain_probe).
Proof.
  apply (visit_checkpoints_bracketed Examples.plain_world
           (newHTTPStatsCollector "http://example.com" 10) initial
           Examples.plain_probe (Some {| http.StatusCode := 200 |}) None
           (mkState 8 [] BodyOpen [])).
  - intros n m Hnm. cbn. unfold Examples.steady_clock. lia.
  - vm_compute. reflexivity.
Defined.

(** X2.  With a clock that never goes back, once the first byte of the
    response was seen the time to first byte and the content transfer
    time of the returned trace are not negative. *)
Theorem first_byte_durations_nonneg
    (w : World) (c : httpStatsCollector) (st : state)
    (s : stats) (resp : option http.Response) (err : option error)
    (st1 : state) :
  monotone_clock w ->
  visit w c st = Returns (s, resp, err) st1 ->
  GotFirstResponseByte s <> zero ->
  0 <= ttfb s /\ 0 <= contentTransfer s.
Proof.
  intros Hmono Hv Hreached.
  destruct (visit_bracket _ _ _ _ _ _ _ Hmono Hv) as [_ Hall].
  unfold checkpoints in Hall.
  do 7 (apply Forall_cons in Hall as [_ Hall]).
  apply Forall_cons in Hall as [[Hz | [Hlo Hhi]] _]; [contradiction|].
  unfold ttfb, contentTransfer. split; apply Sub_nonneg; assumption.
Qed.

Lemma first_byte_durations_nonneg_witness :
  0 <= ttfb Examples.plain_probe /\ 0 <= contentTransfer Examples.plain_probe.
Proof.
  apply (first_byte_durations_nonneg Examples.plain_world
           (newHTTPStatsCollector "http://example.com" 10) initial
           Examples.plain_probe (Some {| http.StatusCode := 200 |}) None
           (mkState 8 [] BodyOpen [])).
  - intros n m Hnm. cbn. unfold Examples.steady_clock. lia.
  - vm_compute. reflexivity.
  - vm_compute. discriminate.
Defined.

Lemma Parse_raw w u x : url.Parse w u = inl x -> url.raw x = u.
Proof.
  unfold url.Parse. destruct (Bytes.Cut "#" u) as [v frag].
  repeat case_match; intros [= <-]; reflexivity.
Qed.

Lemma NewRequest_raw w u req :
  http.NewRequest w "GET" u = inl req -> url.raw (http.URL req) = u.
Proof.
  unfold http.NewRequest. destruct (url.Parse w u) as [x|e] eqn:Hp;
    intros [= <-]. cbn. eapply Parse_raw, Hp.
Qed.

(** What [visit] does once the request is built. *)
Lemma visit_unfold w c req st :
  http.NewRequest w "GET" (Collector.url c) = inl req ->
  visit w c st =
  (t ← Now w;
   '(s, resp, err) ← client_Do w (visit_client c) req (set_Start t zero_stats);
   t' ← Now w;
   mret (set_Finish t' s, resp, err)) st.
Proof.
  intros Hreq. unfold visit. rewrite Hreq. run.
  destruct (client_Do _ _ _ _ _) as [[[s1 r1] [e|]] st1| |]; reflexivity.
Qed.

(** X3.  With a clock that never goes back, a successful probe whose
    fetch calls the hooks once each, in the order of a fetch (with or
    without a TLS handshake), returns a trace that satisfies the ordering
    invariant. *)
Theorem visit_ordered_trace
    (w : World) (c : httpStatsCollector) (st : state)
    (s : stats) (resp : option http.Response) (st1 : state)
    (tls : list Event) (result : fetched) :
  monotone_clock w ->
  tls_part tls ->
  roundTrip w (Collector.url c) (http.deadline (visit_client c))
  = (fetch_events tls, result) ->
  visit w c st = Returns (s, resp, None) st1 ->
  ordered s.
Proof.
  intros Hmono Htls Hrt Hv.
  destruct (http.NewRequest w "GET" (Collector.url c)) as [req|e] eqn:Hreq.
  2:{ unfold visit in Hv. rewrite Hreq in Hv. discriminate. }
  rewrite (visit_unfold _ _ _ _ Hreq) in Hv.
  unfold client_Do in Hv. rewrite (NewRequest_raw _ _ _ Hreq), Hrt in Hv.
  run. destruct (negb _); [discriminate|].
  destruct Htls; cbn in Hv;
    destruct result; cbn in Hv; try discriminate;
    injection Hv as <- _ _; unfold ordered, tls_ordered; cbn;
    repeat split;
    first [ apply Hmono; lia
          | left; split; reflexivity
          | right; repeat split; apply Hmono; lia ].
Qed.

Lemma visit_ordered_trace_witness : ordered Examples.plain_probe.
Proof.
  apply (visit_ordered_trace Examples.plain_world
           (newHTTPStatsCollector "http://example.com" 10) initial
           Examples.plain_probe (Some {| http.StatusCode := 200 |})
           (mkState 8 [] BodyOpen []) [] (Responded 200)).
  - intros n m Hnm. cbn. unfold Examples.steady_clock. lia.
  - constructor.
  - reflexivity.
  - vm_compute. reflexivity.
Defined.

(** A hook other than the two TLS hooks leaves the TLS fields alone. *)
Lemma hook_keeps_tls w ev s st s' st' :
  is_TLS_event ev = false ->
  hook w ev s st = Returns s' st' ->
  TLSHandshakeStart s' = TLSHandshakeStart s /\
  TLSHandshakeDone s' = TLSHandshakeDone s /\
  tlsCert s' = tlsCert s.
Proof.
  destruct ev; cbn; try discriminate; intros _;
    unfold on_DNSStart, on_DNSDone, on_ConnectStart, on_ConnectDone,
      on_GotConn, on_GotFirstResponseByte; run;
    intros [= <- <-]; repeat split.
Qed.

Lemma hooks_keep_tls w evs : forall s st s' st',
  Forall (fun ev => is_TLS_event ev = false) evs ->
  hooks w evs s st = Returns s' st' ->
  TLSHandshakeStart s' = TLSHandshakeStart s /\
  TLSHandshakeDone s' = TLSHandshakeDone s /\
  tlsCert s' = tlsCert s.
Proof.
  induction evs as [|ev evs IH]; intros s st s' st' Hall; cbn.
  - run. intros [= <- <-]. repeat split.
  - apply Forall_cons in Hall as [Hev Hall]. run.
    destruct (hook w ev s st) as [s1 st1| |] eqn:Hh; try discriminate.
    intros Hrest.
    destruct (hook_keeps_tls _ _ _ _ _ _ Hev Hh) as (H1 & H2 & H3).
    destruct (IH _ _ _ _ Hall Hrest) as (H1' & H2' & H3').
    repeat split; congruence.
Qed.

(** X4.  When the fetch calls neither TLS hook (a plain-HTTP target, or
    a fetch that ends before the handshake), the returned trace has a TLS
    handshake duration of exactly zero and holds no certificate. *)
Theorem visit_no_tls_zero
    (w : World) (c : httpStatsCollector) (st : state)
    (s : stats) (resp : option http.Response) (err : option error)
    (st1 : state) :
  Forall (fun ev => is_TLS_event ev = false)
    (fst (roundTrip w (Collector.url c) (http.deadline (visit_client c)))) ->
  visit w c st = Returns (s, resp, err) st1 ->
  tlsHandshake s = 0 /\ tlsCert s = None.
Proof.
  intros Hall Hv.
  destruct (http.NewRequest w "GET" (Collector.url c)) as [req|e] eqn:Hreq.
  2:{ unfold visit in Hv. rewrite Hreq in Hv. discriminate. }
  rewrite (visit_unfold _ _ _ _ Hreq) in Hv.
  unfold client_Do in Hv. rewrite (NewRequest_raw _ _ _ Hreq) in Hv.
  run. destruct (negb _).
  { injection Hv as <- _ _ _. split; reflexivity. }
  destruct (roundTrip w _ _) as [evs result]. cbn in Hall.
  destruct (hooks w evs _ _) as [s1 st2| |] eqn:Hh; try discriminate.
  destruct (hooks_keep_tls _ _ _ _ _ _ Hall Hh) as (H1 & H2 & H3).
  cbn in H1, H2, H3.
  destruct result; cbn in Hv; injection Hv as <- _ _ _;
    unfold tlsHandshake; cbn; rewrite H1, H2, H3; split; reflexivity.
Qed.

Lemma visit_no_tls_zero_witness :
  tlsHandshake Examples.plain_probe = 0 /\ tlsCert Examples.plain_probe = None.
Proof.
  apply (visit_no_tls_zero Examples.plain_world
           (newHTTPStatsCollector "http://example.com" 10) initial
           Examples.plain_probe (Some {| http.StatusCode := 200 |}) None
           (mkState 8 [] BodyOpen [])).
  - cbn. repeat constructor.
  - vm_compute. reflexivity.
Defined.

(** ** How [visit] can end *)

(** A hook reads the clock once and returns, unless it is the end of a
    handshake without error on a connection with no certificate, where it
    panics. *)
Lemma hook_outcome w ev s st :
  (exists s' st', hook w ev s st = Returns s' st' /\ quiet st st'
                  /\ ticks st' = S (ticks st) /\ ~ bare_handshake ev)
  \/ (exists what st', hook w ev s st = Panics what st' /\ quiet st st'
                       /\ ticks st' = S (ticks st) /\ bare_handshake ev).
Proof.
  destruct ev; cbn;
    unfold on_DNSStart, on_DNSDone, on_ConnectStart, on_ConnectDone,
      on_TLSHandshakeStart, on_TLSHandshakeDone, on_GotConn,
      on_GotFirstResponseByte; run;
    try (left; do 2 eexists; split; [reflexivity|];
         split; [repeat split|]; split; [reflexivity|];
         intros (cs0 & Hcs & _); discriminate).
  destruct err as [e|].
  - left. do 2 eexists. split; [reflexivity|]. split; [repeat split|].
    split; [reflexivity|]. intros (cs0 & Hcs & _); discriminate.
  - destruct cs as [[|cert certs]]; cbn.
    + right. do 2 eexists. split; [reflexivity|]. split; [repeat split|].
      split; [reflexivity|]. eexists. split; reflexivity.
    + left. do 2 eexists. split; [reflexivity|]. split; [repeat split|].
      split; [reflexivity|]. intros (cs0 & Hcs & Hnil).
      injection Hcs as <-. discriminate.
Qed.

Lemma hooks_outcome w evs : forall s st,
  (exists s' st', hooks w evs s st = Returns s' st' /\ quiet st st'
                  /\ (ticks st <= ticks st')%nat
                  /\ ~ Exists bare_handshake evs)
  \/ (exists what st', hooks w evs s st = Panics what st' /\ quiet st st'
                       /\ (ticks st <= ticks st')%nat
                       /\ Exists bare_handshake evs).
Proof.
  induction evs as [|ev evs IH]; intros s st; cbn.
  - left. do 2 eexists. run. split; [reflexivity|].
    split; [apply quiet_refl|]. split; [lia|]. intros H. inversion H.
  - run.
    destruct (hook_outcome w ev s st)
      as [(s1 & st1 & -> & Hq & Ht & Hnot) | (what & st1 & -> & Hq & Ht & Hbare)].
    + destruct (IH s1 st1)
        as [(s2 & st2 & -> & Hq2 & Ht2 & Hnot2)
           | (what & st2 & -> & Hq2 & Ht2 & Hex)].
      * left. do 2 eexists. split; [reflexivity|].
        split; [eapply quiet_trans; eauto|]. split; [lia|].
        intros Hex. apply Exists_cons in Hex as [?|?]; contradiction.
      * right. do 2 eexists. split; [reflexivity|].
        split; [eapply quiet_trans; eauto|]. split; [lia|].
        apply Exists_cons. right. exact Hex.
    + right. do 2 eexists. split; [reflexivity|]. split; [exact Hq|].
      split; [lia|]. apply Exists_cons. left. exact Hbare.
Qed.

(** X5.  [visit] panics exactly when the request could be built, its
    scheme is http or https, and one of the hook calls of the fetch is the
    end of a TLS handshake that reports no error on a connection without
    peer certificate.  Nothing else in the probe panics. *)
Theorem visit_panics_iff
    (w : World) (c : httpStatsCollector) (st : state) :
  (exists what st', visit w c st = Panics what st')
  <->
  (exists req,
     http.NewRequest w "GET" (Collector.url c) = inl req /\
     (String.eqb (url.Scheme (http.URL req)) "http"
      || String.eqb (url.Scheme (http.URL req)) "https") = true /\
     Exists bare_handshake
       (fst (roundTrip w (Collector.url c) (http.deadline (visit_client c))))).
Proof.
  destruct (http.NewRequest w "GET" (Collector.url c)) as [req|e] eqn:Hreq.
  2:{ unfold visit. rewrite Hreq. split.
      - intros (what & st' & H). discriminate.
      - intros (req & H & _). discriminate. }
  rewrite (visit_unfold _ _ _ _ Hreq).
  unfold client_Do. rewrite (NewRequest_raw _ _ _ Hreq). run.
  destruct (String.eqb _ "http" || String.eqb _ "https") eqn:Hscheme; cbn.
  2:{ split.
      - intros (what & st' & H). discriminate.
      - intros (req' & [= <-] & Hs & _). congruence. }
  destruct (roundTrip w _ _) as [evs result]. cbn.
  destruct (hooks_outcome w evs (set_Start (clock w (ticks st)) zero_stats)
              (mkState (S (ticks st)) (logged st) (body st) (sent st)))
    as [(s1 & st1 & -> & _ & _ & Hnot) | (what & st1 & -> & _ & _ & Hex)].
  - split.
    + intros (what & st' & H). destruct result; discriminate.
    + intros (req' & _ & _ & Hex). contradiction.
  - split.
    + intros _. exists req. auto.
    + intros _. eauto.
Qed.

Lemma visit_panics_iff_witness :
  exists what st',
    visit Examples.bare_tls_world
      (newHTTPStatsCollector "https://example.com" 10) initial
    = Panics what st'.
Proof.
  apply (proj2 (visit_panics_iff Examples.bare_tls_world
                  (newHTTPStatsCollector "https://example.com" 10) initial)).
  eexists. split; [reflexivity|]. split; [reflexivity|].
  cbn. do 5 (apply Exists_cons; right). apply Exists_cons; left.
  eexists. split; reflexivity.
Defined.

(** X6.  Whatever the world, [visit] writes to the log only to end the
    process: when it returns or panics it has logged nothing and sent
    nothing and has read the clock; when it exits the status is 1, the
    request could not be built, the one line logged is that error, and
    neither the clock nor the network was touched. *)
Theorem visit_effects
    (w : World) (c : httpStatsCollector) (st : state) :
  match visit w c st with
  | Returns _ st' | Panics _ st' =>
      same_output st st' /\ (ticks st < ticks st')%nat
  | Exits status st' =>
      status = 1 /\
      exists e,
        http.NewRequest w "GET" (Collector.url c) = inr e /\
        st' = with_line "Request generation error: %s" [ArgErr e] st
  end.
Proof.
  destruct (http.NewRequest w "GET" (Collector.url c)) as [req|e] eqn:Hreq.
  2:{ unfold visit. rewrite Hreq. cbn. split; [reflexivity|].
      exists e. split; reflexivity. }
  rewrite (visit_unfold _ _ _ _ Hreq).
  unfold client_Do. run.
  destruct (negb _); cbn.
  { repeat split. lia. }
  destruct (roundTrip w _ _) as [evs result]. cbn.
  pose proof (hooks_outcome w evs (set_Start (clock w (ticks st)) zero_stats)
                (mkState (S (ticks st)) (logged st) (body st) (sent st)))
    as [(s1 & st1 & Hh & [[HL HS] _] & Ht & _)
       | (what & st1 & Hh & [[HL HS] _] & Ht & _)];
    rewrite Hh; cbn in HL, HS, Ht.
  - destruct result; cbn; (split; [split; assumption | lia]).
  - split; [split; assumption | lia].
Qed.

(** ** What [Collect] sends and logs *)

Lemma NewConstMetric_inl d t v l m :
  prometheus.NewConstMetric d t v l = inl m -> m = prometheus.mkMetric d t v l.
Proof.
  unfold prometheus.NewConstMetric.
  repeat case_match; intros [= <-]; reflexivity.
Qed.

Lemma until_error_Forall (P : prometheus.Metric -> Prop) l :
  Forall (fun r => forall m, r = inl m -> P m) l -> Forall P (until_error l).
Proof.
  induction 1 as [|r l Hr Hl IH]; cbn; [constructor|].
  destruct r as [m|e]; constructor; auto.
Qed.

Lemma until_error_length l : (length (until_error l) <= length l)%nat.
Proof.
  induction l as [|[m|e] l IH]; cbn; lia.
Qed.

(** The samples that [Collect] builds come from the collector's own
    descriptors. *)
Lemma attempts_described c s label :
  Forall (fun m => In (prometheus.desc m) (Describe c)
                   /\ prometheus.valType m = prometheus.GaugeValue
                   /\ prometheus.labelValues m = [label])
    (until_error (attempts c s label)).
Proof.
  apply until_error_Forall. unfold attempts, Describe. cbn [map].
  repeat (apply Forall_cons; split); try apply Forall_nil_2;
    intros m Hm; apply NewConstMetric_inl in Hm; subst m; cbn; auto 10.
Qed.

(** The log of a [Collect] whose probe succeeded: nothing when the six
    samples were built, one line otherwise. *)
Lemma Collect_success_log w c st s code st1 :
  visit w c st = Returns (s, Some {| http.StatusCode := code |}, None) st1 ->
  exists st2,
    Collect w c st = Returns tt st2 /\
    ((length (until_error (attempts c s (statusClass code))) = 6%nat
      /\ logged st2 = logged st1)
     \/ ((length (until_error (attempts c s (statusClass code))) < 6)%nat
         /\ exists fmt e,
              logged st2 = (logged st1 ++ [LogLine fmt [ArgErr e]])%list)).
Proof.
  intros Hv. unfold Collect. rewrite (bind_returns _ _ _ _ _ Hv).
  cbv beta iota. unfold attempts, emit. cbn [map http.StatusCode].
  set (label := statusClass code).
  repeat match goal with
  | |- context [prometheus.NewConstMetric ?d ?t ?v ?l] =>
      destruct (prometheus.NewConstMetric d t v l) as [?m|?e]
  end;
  (eexists; split; [apply defer_close_returns; reflexivity|]; cbn;
   first [ left; split; reflexivity
         | right; split; [lia | do 2 eexists; reflexivity] ]).
Qed.

(** X7.  Whatever the collector and the world, every metric that a
    returning [Collect] has sent carries one of the six descriptors that
    [Describe] lists, is a gauge and has a single label value; and no more
    than six are sent. *)
Theorem Collect_sends_described
    (w : World) (c : httpStatsCollector) (st st2 : state) :
  Collect w c st = Returns tt st2 ->
  exists new,
    sent st2 = (sent st ++ new)%list /\
    (length new <= 6)%nat /\
    Forall (fun m => In (prometheus.desc m) (Describe c)
                     /\ prometheus.valType m = prometheus.GaugeValue
                     /\ length (prometheus.labelValues m) = 1%nat) new.
Proof.
  intros HC.
  destruct (visit w c st) as [[[s resp] err] st1| |] eqn:Hv.
  2,3: unfold Collect in HC; run; rewrite Hv in HC; discriminate.
  destruct (visit_returns _ _ _ _ _ _ _ Hv) as [[_ Hsent] Hcases].
  destruct err as [e|].
  - rewrite (Collect_on_failure _ _ _ _ _ _ _ Hv) in HC.
    injection HC as <-. exists []. cbn. rewrite app_nil_r.
    split; [exact Hsent|]. split; [lia | constructor].
  - destruct Hcases as [(_ & [code ->] & _) | [([e He] & _) | ([e He] & _)]];
      try discriminate.
    destruct (Collect_on_success _ _ _ _ _ _ Hv) as (st2' & HC' & Hs & _).
    rewrite HC' in HC. injection HC as <-.
    exists (until_error (attempts c s (statusClass code))).
    split; [congruence|]. split.
    + etransitivity; [apply until_error_length|]. reflexivity.
    + eapply Forall_impl; [apply attempts_described|].
      cbn. intros m (Hd & Ht & ->). auto.
Qed.

Lemma Collect_sends_described_witness :
  exists new,
    sent (mkState 8 [LogLine "tcpConnection metric generation error: %s"
                       [ArgErr (ErrMetricName "tcp handshake time")]]
            BodyClosed
            [gauge "dns_lookup_time" "A gauge of the DNS lookup durations(ms)"
               "2xx" 1500000])
    = (sent initial ++ new)%list /\
    (length new <= 6)%nat /\
    Forall (fun m => In (prometheus.desc m) (Describe Examples.flawed_collector)
                     /\ prometheus.valType m = prometheus.GaugeValue
                     /\ length (prometheus.labelValues m) = 1%nat) new.
Proof.
  apply (Collect_sends_described Examples.plain_world
           Examples.flawed_collector initial).
  vm_compute. reflexivity.
Defined.

(** X8.  Whenever the probe returns, [Collect] returns too, and it never
    drops a sample without a word: either it has sent six samples and
    logged nothing, or it has sent fewer than six and logged exactly one
    line. *)
Theorem Collect_six_or_one_line
    (w : World) (c : httpStatsCollector) (st : state)
    (s : stats) (resp : option http.Response) (err : option error)
    (st1 : state) :
  visit w c st = Returns (s, resp, err) st1 ->
  exists st2 new lines,
    Collect w c st = Returns tt st2 /\
    sent st2 = (sent st ++ new)%list /\
    logged st2 = (logged st ++ lines)%list /\
    ((length new = 6%nat /\ lines = [])
     \/ ((length new < 6)%nat /\ length lines = 1%nat)).
Proof.
  intros Hv.
  destruct (visit_returns _ _ _ _ _ _ _ Hv) as [[Hlog Hsent] Hcases].
  destruct err as [e|].
  - exists (with_line "URL visit error: %s" [ArgErr e] st1), [],
      [LogLine "URL visit error: %s" [ArgErr e]].
    split; [exact (Collect_on_failure _ _ _ _ _ _ _ Hv)|]. cbn.
    rewrite app_nil_r, Hlog, Hsent. repeat split. right. split; [lia|reflexivity].
  - destruct Hcases as [(_ & [code ->] & _) | [([e He] & _) | ([e He] & _)]];
      try discriminate.
    destruct (Collect_on_success _ _ _ _ _ _ Hv) as (st2 & HC & Hs & _).
    destruct (Collect_success_log _ _ _ _ _ _ Hv) as (st2' & HC' & Hl).
    rewrite HC in HC'. injection HC' as <-.
    exists st2, (until_error (attempts c s (statusClass code))).
    destruct Hl as [[Hsix Hl] | (Hless & fmt & e & Hl)].
    + exists []. rewrite app_nil_r. repeat split; try congruence. left. auto.
    + exists [LogLine fmt [ArgErr e]]. repeat split; try congruence.
      right. split; [exact Hless | reflexivity].
Qed.

Lemma Collect_six_or_one_line_witness :
  exists st2 new lines,
    Collect Examples.plain_world Examples.flawed_collector initial
    = Returns tt st2 /\
    sent st2 = (sent initial ++ new)%list /\
    logged st2 = (logged initial ++ lines)%list /\
    ((length new = 6%nat /\ lines = [])
     \/ ((length new < 6)%nat /\ length lines = 1%nat)).
Proof.
  apply (Collect_six_or_one_line Examples.plain_world
           Examples.flawed_collector initial Examples.plain_probe
           (Some {| http.StatusCode := 200 |}) None
           (mkState 8 [] BodyOpen [])).
  vm_compute. reflexivity.
Defined.

(** ** The scrape handler, end to end *)

(** X9.  A query without a [target], or whose first [target] value is
    empty, is answered with status 400 and the text "Target param is
    missing"; nothing is logged, no clock is read and no probe is made. *)
Theorem handler_missing_target
    (w : World) (params : gmap string (list string)) (st : state) :
  Values_Get params "target" = "" ->
  prometheusReqsHandler w params st
  = Returns (ReplyError "Target param is missing" 400) st.
Proof.
  intros Ht. unfold prometheusReqsHandler, scrape_collector.
  rewrite Ht. reflexivity.
Qed.

Lemma handler_missing_target_witness :
  prometheusReqsHandler Examples.plain_world
    (<[ "timeout" := ["5"] ]> (<[ "target" := [] ]> ∅)) initial
  = Returns (ReplyError "Target param is missing" 400) initial.
Proof.
  apply (handler_missing_target Examples.plain_world
           (<[ "timeout" := ["5"] ]> (<[ "target" := [] ]> ∅)) initial).
  vm_compute. reflexivity.
Defined.

(** The number that [Atoi] returns with an error is 0 or a bound of
    [int]. *)
Lemma Atoi_error_value s n e :
  strconv.Atoi s = (n, Some e) ->
  n = 0 \/ n = Int64.min_int \/ n = Int64.max_int.
Proof.
  unfold strconv.Atoi, strconv.ParseInt.
  repeat case_match; intros Hret; try discriminate Hret; injection Hret as <- _;
    first [ left; reflexivity
          | right; left; reflexivity
          | right; right; reflexivity ].
Qed.

(** X10.  When the [timeout] parameter is present and is not a number
    that [Atoi] accepts, the handler still builds the collector with 10
    seconds and logs one line, "Invalid timeout parameter. Use default
    timeout: %d", whose number is what [Atoi] returned with its error (0,
    or a bound of [int]) and so is never the 10 that is used. *)
Theorem handler_invalid_timeout_log
    (params : gmap string (list string)) (st : state) (n : Z) (e : error) :
  Values_Get params "target" <> "" ->
  Values_Get params "timeout" <> "" ->
  strconv.Atoi (Values_Get params "timeout") = (n, Some e) ->
  scrape_collector params st
  = Returns (inr (newHTTPStatsCollector (Values_Get params "target") 10))
      (with_line "Invalid timeout parameter. Use default timeout: %d"
         [ArgInt n] st)
  /\ n <> 10.
Proof.
  intros Htarget Htimeout Hatoi. split.
  - unfold scrape_collector.
    destruct (String.eqb_spec (Values_Get params "target") "");
      [contradiction|].
    destruct (String.eqb_spec (Values_Get params "timeout") "");
      [contradiction|].
    cbn [negb]. rewrite Hatoi. reflexivity.
  - destruct (Atoi_error_value _ _ _ Hatoi) as [-> | [-> | ->]];
      unfold Int64.min_int, Int64.max_int; lia.
Qed.

Lemma handler_invalid_timeout_log_witness :
  scrape_collector
    (<[ "timeout" := ["5s"] ]> (<[ "target" := ["http://example.com"] ]> ∅))
    initial
  = Returns
      (inr (newHTTPStatsCollector
              (Values_Get
                 (<[ "timeout" := ["5s"] ]>
                    (<[ "target" := ["http://example.com"] ]> ∅))
                 "target") 10))
      (with_line "Invalid timeout parameter. Use default timeout: %d"
         [ArgInt 0] initial)
  /\ 0 <> 10.
Proof.
  apply (handler_invalid_timeout_log
           (<[ "timeout" := ["5s"] ]>
              (<[ "target" := ["http://example.com"] ]> ∅))
           initial 0 (ErrSyntax "Atoi" "5s")).
  - vm_compute. discriminate.
  - vm_compute. discriminate.
  - vm_compute. reflexivity.
Defined.

(** What the first part of the handler leaves untouched. *)
Lemma scrape_collector_returns params st c st' :
  scrape_collector params st = Returns (inr c) st' ->
  c = newHTTPStatsCollector (Values_Get params "target") 10 /\
  ticks st' = ticks st /\ sent st' = sent st /\ body st' = body st.
Proof.
  unfold scrape_collector. destruct (String.eqb _ ""); [discriminate|].
  destruct (negb _).
  - destruct (strconv.Atoi _) as [n [e|]]; run;
      intros [= <- <-]; repeat split.
  - run. intros [= <- <-]. repeat split.
Qed.

Lemma Collect_six w u timeout st s code st1 :
  visit w (newHTTPStatsCollector u timeout) st
  = Returns (s, Some {| http.StatusCode := code |}, None) st1 ->
  exists st2,
    Collect w (newHTTPStatsCollector u timeout) st = Returns tt st2 /\
    sent st2 = (sent st1 ++ six_samples s (statusClass code))%list /\
    body st2 = BodyClosed.
Proof.
  intros Hv. eexists. unfold Collect. rewrite (bind_returns _ _ _ _ _ Hv).
  cbv beta iota.
  rewrite !emit_built by (first [reflexivity | apply statusClass_ValidString]).
  split; [reflexivity|]. cbn [sent body]. split; [|reflexivity].
  rewrite <- !app_assoc. reflexivity.
Qed.

Lemma Gather_six w u timeout st s code st1 :
  visit w (newHTTPStatsCollector u timeout) st
  = Returns (s, Some {| http.StatusCode := code |}, None) st1 ->
  exists st2,
    Gather w (newHTTPStatsCollector u timeout) st
    = Returns (inl (six_samples_by_name s (statusClass code))) st2 /\
    body st2 = BodyClosed.
Proof.
  intros Hv.
  destruct (Collect_six _ _ _ _ _ _ _ Hv) as (st2 & HC & Hs2 & Hb2).
  destruct (visit_returns _ _ _ _ _ _ _ Hv) as [[_ Hsent] _].
  exists st2. split; [|exact Hb2]. unfold Gather.
  rewrite (bind_returns sent_count _ st (length (sent st)) st eq_refl).
  rewrite (bind_returns _ _ _ _ _ HC).
  unfold gathered_since, mbind, M_bind.
  rewrite Hs2, Hsent, drop_app_length. reflexivity.
Qed.

(** X11.  End to end: when the query names a target and the probe of
    the collector built from it succeeds, the handler replies with
    exactly the six samples of that probe and nothing else, in the order
    of their names, each labelled with the status class of the response;
    the response body is closed by then. *)
Theorem handler_success_reply
    (w : World) (params : gmap string (list string)) (st : state)
    (c : httpStatsCollector) (st' : state)
    (s : stats) (resp : option http.Response) (st1 : state) :
  scrape_collector params st = Returns (inr c) st' ->
  visit w c st' = Returns (s, resp, None) st1 ->
  exists code st2,
    resp = Some {| http.StatusCode := code |} /\
    prometheusReqsHandler w params st
    = Returns (ReplyMetrics (six_samples_by_name s (statusClass code))) st2
    /\ body st2 = BodyClosed.
Proof.
  intros Hsc Hv.
  destruct (scrape_collector_returns _ _ _ _ Hsc) as (-> & _).
  destruct (visit_returns _ _ _ _ _ _ _ Hv) as [_ Hcases].
  destruct Hcases as [(_ & [code ->] & _) | [([e He] & _) | ([e He] & _)]];
    try discriminate.
  destruct (Gather_six _ _ _ _ _ _ _ Hv) as (st2 & HG & Hb2).
  exists code, st2. split; [reflexivity|].
  unfold prometheusReqsHandler. rewrite (bind_returns _ _ _ _ _ Hsc).
  unfold serve.
  rewrite (bind_returns _ _ _ _ _ (MustRegister_new _ _ _)).
  rewrite (bind_returns _ _ _ _ _ HG).
  split; [reflexivity | exact Hb2].
Qed.

Lemma handler_success_reply_witness :
  exists code st2,
    Some {| http.StatusCode := 200 |} = Some {| http.StatusCode := code |} /\
    prometheusReqsHandler Examples.plain_world Examples.query_with_timeout
      initial
    = Returns (ReplyMetrics
                 (six_samples_by_name Examples.plain_probe (statusClass code)))
        st2
    /\ body st2 = BodyClosed.
Proof.
  apply (handler_success_reply Examples.plain_world
           Examples.query_with_timeout initial
           (newHTTPStatsCollector "http://example.com" 10) initial
           Examples.plain_probe (Some {| http.StatusCode := 200 |})
           (mkState 8 [] BodyOpen [])).
  - vm_compute. reflexivity.
  - vm_compute. reflexivity.
Defined.

(** ** The webhook client *)

Lemma CTL_append (u v : string) :
  url.stringContainsCTLByte v = true ->
  url.stringContainsCTLByte (u ++ v) = true.
Proof.
  unfold url.stringContainsCTLByte. intros Hv.
  induction u as [|a u IH]; [exact Hv|].
  change (String a u ++ v) with (String a (u ++ v)).
  change (Bytes.any url.is_CTL (String a (u ++ v)))
    with (url.is_CTL a || Bytes.any url.is_CTL (u ++ v)).
  rewrite IH. apply orb_true_r.
Qed.

Lemma NewSlack_CTL web u channel username :
  url.stringContainsCTLByte u = true ->
  exists e, slack.NewSlack web u channel username = inr e.
Proof.
  intros H. unfold slack.NewSlack, slack.ParseRequestURI. rewrite H. eauto.
Qed.

(** X12.  [NewSlack] returns an error and no client for the empty URL
    and for a URL with a control byte in it, such as one that ends with
    the line feed of the file it was read from, whatever the channel and
    the user name.  A client it does return holds the URL, the channel and
    the user name as given and no attachment. *)
Theorem NewSlack_validates
    (web : slack.Web) (u channel username : string) :
  (exists e, slack.NewSlack web "" channel username = inr e) /\
  (exists e, slack.NewSlack web (u ++ newline) channel username = inr e) /\
  (forall s,
     slack.NewSlack web u channel username = inl s ->
     s = slack.Client.mk u (slack.mkPayload channel username []) /\
     u <> "" /\ url.stringContainsCTLByte u = false).
Proof.
  split; [eexists; reflexivity|]. split.
  - apply NewSlack_CTL, CTL_append. reflexivity.
  - intros s. unfold slack.NewSlack, slack.ParseRequestURI.
    destruct (url.stringContainsCTLByte u) eqn:Hctl; [discriminate|].
    destruct (String.eqb_spec u ""); [discriminate|].
    repeat case_match; try discriminate; intros [= <-]; auto.
Qed.

Lemma NewSlack_validates_witness :
  slack.NewSlack SlackExamples.ok_web SlackExamples.hook_url "webmon" "test"
  = inl SlackExamples.a_client
  /\ SlackExamples.hook_url <> ""
  /\ url.stringContainsCTLByte SlackExamples.hook_url = false.
Proof.
  split; [reflexivity|].
  apply (proj2 (proj2 (NewSlack_validates SlackExamples.ok_web
                         SlackExamples.hook_url "webmon" "test"))
           SlackExamples.a_client).
  reflexivity.
Defined.

Lemma Post_returns web title pretext text color s st :
  exists err st',
    slack.Post web title pretext text color s st
    = Returns (slack.set_Attachments [posted title pretext text color] s, err)
        st'.
Proof.
  unfold slack.Post, posted.
  destruct (slack.Marshal web _) as [body|e]; [|run; eauto].
  destruct (slack.PostForm web _ _) as [res|e]; [|run; eauto].
  run. unfold defer. destruct (negb _); cbn; eauto.
Qed.

Lemma Post_client web title pretext text color s st s' err st' :
  slack.Post web title pretext text color s st = Returns (s', err) st' ->
  s' = slack.set_Attachments [posted title pretext text color] s.
Proof.
  intros H.
  destruct (Post_returns web title pretext text color s st)
    as (err0 & st0 & H0).
  rewrite H0 in H. injection H as <- _ _. reflexivity.
Qed.

(** X13.  When [Post] returns, with an error or without, it leaves in
    the client exactly the one attachment of this call; the URL, the
    channel and the user name stay.  So after two calls in a row that both
    return, the client holds the attachment of the second only:
    attachments are replaced, never accumulated. *)
Theorem Post_replaces_attachments
    (web : slack.Web) (s s1 s2 : slack.SlackClient) (st st1 st2 : state)
    (err1 err2 : option slack.post_error)
    (t1 p1 x1 c1 t2 p2 x2 c2 : string) :
  slack.Post web t1 p1 x1 c1 s st = Returns (s1, err1) st1 ->
  slack.Post web t2 p2 x2 c2 s1 st1 = Returns (s2, err2) st2 ->
  s1 = slack.Client.mk (slack.Client.WebhookURL s)
         (slack.mkPayload
            (slack.Channel (slack.Client.Payload s))
            (slack.Username (slack.Client.Payload s))
            [posted t1 p1 x1 c1]) /\
  s2 = slack.Client.mk (slack.Client.WebhookURL s)
         (slack.mkPayload
            (slack.Channel (slack.Client.Payload s))
            (slack.Username (slack.Client.Payload s))
            [posted t2 p2 x2 c2]).
Proof.
  intros H1 H2.
  apply Post_client in H1. apply Post_client in H2. subst s1 s2.
  split; reflexivity.
Qed.

Lemma Post_replaces_attachments_witness :
  slack.set_Attachments [posted "down" "<!here>" "timeout" "danger"]
    SlackExamples.a_client
  = slack.Client.mk SlackExamples.hook_url
      (slack.mkPayload "webmon" "test"
         [posted "down" "<!here>" "timeout" "danger"]) /\
  slack.set_Attachments [posted "up" "" "recovered" "good"]
    (slack.set_Attachments [posted "down" "<!here>" "timeout" "danger"]
       SlackExamples.a_client)
  = slack.Client.mk SlackExamples.hook_url
      (slack.mkPayload "webmon" "test" [posted "up" "" "recovered" "good"]).
Proof.
  apply (Post_replaces_attachments SlackExamples.missing_web
           SlackExamples.a_client _ _ initial
           (mkState 0 [] BodyClosed []) (mkState 0 [] BodyClosed [])
           (Some (slack.WebhookStatus "404 Not Found"))
           (Some (slack.WebhookStatus "404 Not Found"))
           "down" "<!here>" "timeout" "danger" "up" "" "recovered" "good").
  - reflexivity.
  - reflexivity.
Defined.

(** X14.  [Post] returns no error exactly when the payload could be
    marshalled, the form could be posted and the answer has status 200.
    It logs nothing, and a response body that it obtained is closed when
    it returns. *)
Theorem Post_ok_iff_200
    (web : slack.Web) (title pretext text color : string)
    (s s' : slack.SlackClient) (st st' : state)
    (err : option slack.post_error) :
  slack.Post web title pretext text color s st = Returns (s', err) st' ->
  (err = None <->
   exists body res,
     slack.Marshal web (slack.Client.Payload s') = inl body /\
     slack.PostForm web (slack.Client.WebhookURL s')
       {[ "payload" := [body] ]} = inl res /\
     slack.StatusCode res = 200) /\
  same_output st st' /\
  (body st' = BodyClosed \/ st' = st).
Proof.
  unfold slack.Post.
  set (s1 := slack.set_Attachments _ s).
  destruct (slack.Marshal web (slack.Client.Payload s1)) as [body|e] eqn:Hm.
  2:{ unfold mret, M_ret. intros [= <- <- <-]. rewrite Hm.
      split; [|split; [split|]; auto].
      split; [discriminate|]. intros (b & r & Hb & _). discriminate. }
  destruct (slack.PostForm web (slack.Client.WebhookURL s1) _)
    as [res|e] eqn:Hp.
  2:{ unfold mret, M_ret. intros [= <- <- <-]. rewrite Hm.
      split; [|split; [split|]; auto].
      split; [discriminate|]. intros (b & r & [= <-] & Hr & _).
      rewrite Hp in Hr. discriminate. }
  unfold mbind, M_bind, mret, M_ret, set_body, defer, Body_Close,
    slack.StatusOK.
  destruct (Z.eqb_spec (slack.StatusCode res) 200) as [H200|H200];
    cbn [negb]; intros [= <- <- <-]; rewrite Hm.
  - split; [|split; [split|]; auto]. split; [|reflexivity].
    intros _. exists body, res. auto.
  - split; [|split; [split|]; auto]. split; [discriminate|].
    intros (b & r & [= <-] & Hr & Hcode).
    rewrite Hp in Hr. injection Hr as <-. contradiction.
Qed.

Lemma Post_ok_iff_200_witness :
  (Some (slack.WebhookStatus "404 Not Found") = None <->
   exists body res,
     slack.Marshal SlackExamples.missing_web
       (slack.Client.Payload
          (slack.set_Attachments [posted "title" "<!here>" "test" "good"]
             SlackExamples.a_client)) = inl body /\
     slack.PostForm SlackExamples.missing_web
       (slack.Client.WebhookURL
          (slack.set_Attachments [posted "title" "<!here>" "test" "good"]
             SlackExamples.a_client))
       {[ "payload" := [body] ]} = inl res /\
     slack.StatusCode res = 200) /\
  same_output initial (mkState 0 [] BodyClosed []) /\
  (body (mkState 0 [] BodyClosed []) = BodyClosed
   \/ mkState 0 [] BodyClosed [] = initial).
Proof.
  apply (Post_ok_iff_200 SlackExamples.missing_web
           "title" "<!here>" "test" "good" SlackExamples.a_client
           (slack.set_Attachments [posted "title" "<!here>" "test" "good"]
              SlackExamples.a_client)
           initial (mkState 0 [] BodyClosed [])
           (Some (slack.WebhookStatus "404 Not Found"))).
  reflexivity.
Defined.

(** ** More on the probe and its deadline *)

(** X15.  For a target whose URL parses but whose scheme is neither http
    nor https, [visit] does not reach the network: it reads the clock
    twice, for [Start] and [Finish], calls no hook, and returns with no
    response the error "unsupported protocol scheme", which names the
    scheme and the URL as the parsed URL is written back. *)
Theorem visit_other_scheme
    (w : World) (c : httpStatsCollector) (st : state) (req : http.Request) :
  http.NewRequest w "GET" (Collector.url c) = inl req ->
  (String.eqb (url.Scheme (http.URL req)) "http"
   || String.eqb (url.Scheme (http.URL req)) "https") = false ->
  visit w c st
  = Returns (set_Finish (clock w (S (ticks st)))
               (set_Start (clock w (ticks st)) zero_stats),
             None,
             Some (ErrURL "Get" (url.text (http.URL req))
                     (ErrUnsupportedScheme (url.Scheme (http.URL req)))))
      (mkState (S (S (ticks st))) (logged st) (body st) (sent st)).
Proof.
  intros Hreq Hscheme. rewrite (visit_unfold _ _ _ _ Hreq).
  unfold client_Do. rewrite Hscheme. reflexivity.
Qed.

Lemma visit_other_scheme_witness :
  visit Examples.plain_world (newHTTPStatsCollector "FTP://Example.com" 10)
    initial
  = Returns (set_Finish (Examples.steady_clock 1)
               (set_Start (Examples.steady_clock 0) zero_stats),
             None,
             Some (ErrURL "Get" "ftp://Example.com"
                     (ErrUnsupportedScheme "ftp")))
      (mkState 2 [] NoBody []).
Proof.
  apply (visit_other_scheme Examples.plain_world
           (newHTTPStatsCollector "FTP://Example.com" 10) initial
           {| http.Method := "GET";
              http.URL := {| url.Scheme := "ftp";
                             url.raw := "FTP://Example.com";
                             url.text := "ftp://Example.com" |} |}).
  - reflexivity.
  - reflexivity.
Defined.


